(** * The HTTP request/response validation layer of mocha-chai-superagent-demo

    A shallow embedding of

    - [test/utils/http-client.js]   (class [HttpClient]),
    - [test/utils/test-helpers.js]  ([retry], [responseValidations],
                                     [schemaValidations]),
    - the global test setup         (the custom chai assertions
                                     [responseTime], [successStatus],
                                     [clientErrorStatus]),
    - [BaseApiClient] and [BasePageObject],

    followed by the properties of the specification that concern them.

    JavaScript values are embedded as the inductive type [JS.value]; an
    object is a finite map from property names to values.  A function that
    can [throw] returns a [JS.result]; an [async] function that touches the
    outside world (the clock, the network) is a state transformer over an
    abstract world.  An in-place update of an object that is reachable from
    one place only is rendered as a functional update. *)

From Stdlib Require Import Ascii String ZArith.
From stdpp Require Import gmap strings list fin_maps pretty.
From Equations Require Import Equations.

Set Warnings "-register-all".
Local Open Scope string_scope.
Local Open Scope Z_scope.

(* ===================================================================== *)
(** ** JavaScript values and the operators the sources use               *)
(* ===================================================================== *)

Module JS.

(** The constructors of the error objects that occur: [new Error(..)],
    the [TypeError] of the language, and chai's [AssertionError]. *)
Inductive errclass : Type := ErrorC | TypeErrorC | AssertionErrorC.

(** Numbers are the integer-valued ones (status codes, millisecond
    counts); [NaN] only arises as the outcome of a failed conversion
    ([to_number] below) and is never stored.  An array carries its
    elements and, being an object, its named properties.  An error object
    carries the message its constructor stored and its other own
    properties ([response], [status], [timeout], ...). *)
Inductive value : Type :=
| VUndefined
| VNull
| VBool (b : bool)
| VNum (n : Z)
| VStr (s : string)
| VArr (items : list value) (props : gmap string value)
| VObj (props : gmap string value)
| VErr (cls : errclass) (message : string) (props : gmap string value).

(** Completion of a call: a normal return, or a thrown value. *)
Inductive result (A : Type) : Type :=
| Return (a : A)
| Throw (e : value).
Arguments Return {A} a.
Arguments Throw {A} e.

(** Sequencing: a thrown value skips the rest. *)
#[global] Instance result_ret : MRet result := @Return.
#[global] Instance result_bind : MBind result := λ A B k r,
  match r with
  | Return a => k a
  | Throw e => Throw e
  end.

Definition class_name (c : errclass) : string :=
  match c with
  | ErrorC => "Error"
  | TypeErrorC => "TypeError"
  | AssertionErrorC => "AssertionError"
  end.

(** [new Error(msg)], [new TypeError(msg)]. *)
Definition new_Error (msg : string) : value := VErr ErrorC msg ∅.
Definition new_TypeError (msg : string) : value := VErr TypeErrorC msg ∅.

(** ToBoolean. *)
Definition truthy (v : value) : bool :=
  match v with
  | VUndefined | VNull => false
  | VBool b => b
  | VNum n => negb (n =? 0)
  | VStr s => negb (String.eqb s "")
  | VArr _ _ | VObj _ | VErr _ _ _ => true
  end.

(** ToString, as a template literal applies it.  An error object is
    shown by its constructor's name and message. *)
Fixpoint to_string (v : value) : string :=
  match v with
  | VUndefined => "undefined"
  | VNull => "null"
  | VBool b => if b then "true" else "false"
  | VNum n => pretty n
  | VStr s => s
  | VArr items _ =>
      String.concat ","
        (map (λ x, match x with
                   | VUndefined | VNull => ""
                   | _ => to_string x
                   end) items)
  | VObj _ => "[object Object]"
  | VErr c msg _ =>
      if String.eqb msg "" then class_name c
      else class_name c ++ ": " ++ msg
  end.

(** *** String to number

    StringToNumber restricted to the integer model: surrounding white
    space is dropped, the empty string is [0], an optionally signed run
    of decimal digits is its value, and anything else is [NaN] ([None]).
    (Literals with a fraction, an exponent or a radix prefix denote
    numbers this model does not represent.) *)
Fixpoint drop_space (s : string) : string :=
  match s with
  | String a r => if Ascii.is_space a then drop_space r else s
  | EmptyString => EmptyString
  end.

Definition trim (s : string) : string :=
  String.rev (drop_space (String.rev (drop_space s))).

Fixpoint digits_go (s : string) (acc : Z) : option Z :=
  match s with
  | EmptyString => Some acc
  | String a r =>
      match Ascii.is_nat a with
      | Some d => digits_go r (10 * acc + Z.of_nat d)
      | None => None
      end
  end.

Definition digits (s : string) : option Z :=
  match s with
  | EmptyString => None
  | _ => digits_go s 0
  end.

Definition parse_number (s : string) : option Z :=
  match trim s with
  | EmptyString => Some 0
  | String a r =>
      if Ascii.eqb a "-"%char then Z.opp <$> digits r
      else if Ascii.eqb a "+"%char then digits r
      else digits (String a r)
  end.

(** ToNumber; [None] is [NaN]. *)
Definition to_number (v : value) : option Z :=
  match v with
  | VUndefined => None
  | VNull => Some 0
  | VBool b => Some (if b then 1 else 0)
  | VNum n => Some n
  | VStr s => parse_number s
  | VArr _ _ | VObj _ | VErr _ _ _ => parse_number (to_string v)
  end.

(** [v <= n], [v >= n], [v < n] against a number [n]: the left operand
    is converted by ToNumber and a comparison with [NaN] is false. *)
Definition le_num (v : value) (n : Z) : bool :=
  match to_number v with Some x => x <=? n | None => false end.
Definition ge_num (v : value) (n : Z) : bool :=
  match to_number v with Some x => n <=? x | None => false end.
Definition lt_num (v : value) (n : Z) : bool :=
  match to_number v with Some x => x <? n | None => false end.

(** [v === n] for a number [n]. *)
Definition strict_eq_num (v : value) (n : Z) : bool :=
  match v with VNum m => m =? n | _ => false end.

(** *** Properties *)

(** The array index a property key denotes, if it is one in canonical
    form. *)
Definition index_key (k : string) : option nat :=
  match digits k with
  | Some n => if String.eqb (pretty n) k then Some (Z.to_nat n) else None
  | None => None
  end.

Definition char_at (s : string) (i : nat) : value :=
  match String.get i s with
  | Some a => VStr (String a EmptyString)
  | None => VUndefined
  end.

(** [v[k]] (equally [v.k]).  Reading a property of [undefined] or [null]
    throws a TypeError.  Inherited methods are not values of this model;
    of the inherited data properties, an error object shows its [name]
    and [message]. *)
Definition get_prop (v : value) (k : string) : result value :=
  match v with
  | VUndefined | VNull =>
      Throw (new_TypeError ("Cannot read properties of " ++ to_string v
                            ++ " (reading '" ++ k ++ "')"))
  | VBool _ | VNum _ => Return VUndefined
  | VStr s =>
      if String.eqb k "length" then Return (VNum (Z.of_nat (String.length s)))
      else match index_key k with
           | Some i => Return (char_at s i)
           | None => Return VUndefined
           end
  | VArr items props =>
      if String.eqb k "length" then Return (VNum (Z.of_nat (length items)))
      else match index_key k with
           | Some i => Return (default VUndefined (items !! i))
           | None => Return (default VUndefined (props !! k))
           end
  | VObj props => Return (default VUndefined (props !! k))
  | VErr c msg props =>
      match props !! k with
      | Some x => Return x
      | None =>
          if String.eqb k "message" then Return (VStr msg)
          else if String.eqb k "name" then Return (VStr (class_name c))
          else Return VUndefined
      end
  end.

(** [k in Object(v)], for the same keys: own properties, the [length]
    and the indices of strings and arrays, [name] and [message] of error
    objects. *)
Definition has_property (v : value) (k : string) : bool :=
  match v with
  | VUndefined | VNull | VBool _ | VNum _ => false
  | VStr s =>
      String.eqb k "length"
      || match index_key k with
         | Some i => bool_decide (i < String.length s)%nat
         | None => false
         end
  | VArr items props =>
      String.eqb k "length"
      || match index_key k with
         | Some i => bool_decide (i < length items)%nat
         | None => bool_decide (is_Some (props !! k))
         end
  | VObj props => bool_decide (is_Some (props !! k))
  | VErr _ _ props =>
      bool_decide (is_Some (props !! k))
      || String.eqb k "message" || String.eqb k "name"
  end.

(** The type names with which a primitive is reported when an assignment
    to one of its properties is refused. *)
Definition typeof (v : value) : string :=
  match v with
  | VUndefined => "undefined"
  | VNull | VArr _ _ | VObj _ | VErr _ _ _ => "object"
  | VBool _ => "boolean"
  | VNum _ => "number"
  | VStr _ => "string"
  end.

(** [v.k = x] in strict code (class bodies are strict), for a key [k]
    that is neither an array index nor [length]: the object as it is
    after the assignment.  Assigning to a property of a primitive
    throws. *)
Definition set_prop (v : value) (k : string) (x : value) : result value :=
  match v with
  | VUndefined | VNull =>
      Throw (new_TypeError ("Cannot set properties of " ++ to_string v
                            ++ " (setting '" ++ k ++ "')"))
  | VBool _ | VNum _ | VStr _ =>
      Throw (new_TypeError ("Cannot create property '" ++ k ++ "' on "
                            ++ typeof v ++ " '" ++ to_string v ++ "'"))
  | VArr items props => Return (VArr items (<[k := x]> props))
  | VObj props => Return (VObj (<[k := x]> props))
  | VErr c msg props => Return (VErr c msg (<[k := x]> props))
  end.

(** The holder [o] after the object its property [k] refers to has been
    updated in place to [x]: the reference is shared, so the update is
    seen through [o]. *)
Definition seen_through (o : value) (k : string) (x : value) : value :=
  match o with
  | VArr items props => VArr items (<[k := x]> props)
  | VObj props => VObj (<[k := x]> props)
  | VErr c msg props => VErr c msg (<[k := x]> props)
  | _ => o
  end.

(** [{ ...a, ...b }] on two objects: the properties of [a], then those
    of [b] over them. *)
Definition spread (a b : gmap string value) : gmap string value := b ∪ a.

End JS.

Import JS.

(* ===================================================================== *)
(** ** The assertions of chai that the sources use                       *)
(* ===================================================================== *)

Module Chai.

(** chai's assertion failure.  In the messages of chai's own assertions
    the placeholders [#{this}] and [#{exp}] (which chai replaces by a
    rendering of the subject and of the expected value) are kept as
    they are. *)
Definition AssertionError (msg : string) : value :=
  VErr AssertionErrorC msg ∅.

(** [this.assert(cond, msg, ...)] of an assertion that is not negated. *)
Definition assert (cond : bool) (msg : string) : result unit :=
  if cond then Return () else Throw (AssertionError msg).

(** The type name chai detects, in lower case. *)
Definition type (v : value) : string :=
  match v with
  | VUndefined => "undefined"
  | VNull => "null"
  | VBool _ => "boolean"
  | VNum _ => "number"
  | VStr _ => "string"
  | VArr _ _ => "array"
  | VObj _ => "object"
  | VErr _ _ _ => "error"
  end.

(** [expect(v).to.exist] *)
Definition exist (v : value) : result unit :=
  assert (match v with VUndefined | VNull => false | _ => true end)
         "expected #{this} to exist".

(** [expect(v).to.have.property(name)]; the property's value becomes
    the subject of what is chained after it. *)
Definition property (v : value) (name : string) : result value :=
  assert (match v with VUndefined | VNull => false | _ => true end)
         "Target cannot be null or undefined." ;;
  assert (has_property v name)
         ("expected #{this} to have property '" ++ name ++ "'") ;;
  get_prop v name.

Definition article (ty : string) : string :=
  match ty with
  | String a _ =>
      if existsb (Ascii.eqb a) ["a"; "e"; "i"; "o"; "u"]%char
      then "an " else "a "
  | EmptyString => "a "
  end.

(** [expect(v).to.be.a(ty)], [.an(ty)] *)
Definition a (v : value) (ty : string) : result unit :=
  assert (String.eqb (type v) ty)
         ("expected #{this} to be " ++ article ty ++ ty).

(** [expect(v).to.equal(n)] for a number [n]: strict equality. *)
Definition equal (v : value) (n : Z) : result unit :=
  assert (strict_eq_num v n) "expected #{this} to equal #{exp}".

Definition is_substring (needle s : string) : bool :=
  bool_decide (is_Some (String.index 0 needle s)).

(** [expect(v).to.include(needle)] for a string [needle]: a substring
    of a string, an element of an array; any other subject is refused. *)
Definition include (v : value) (needle : string) : result unit :=
  match v with
  | VStr s =>
      assert (is_substring needle s)
             ("expected #{this} to include '" ++ needle ++ "'")
  | VArr items _ =>
      assert (existsb (λ x, match x with
                            | VStr s => String.eqb s needle
                            | _ => false
                            end) items)
             ("expected #{this} to include '" ++ needle ++ "'")
  | _ =>
      Throw (AssertionError
               ("the given combination of arguments (" ++ type v
                ++ " and string) is invalid for this assertion. "
                ++ "You can use an array, a map, an object, a set, "
                ++ "a string, or a weakset instead of a string"))
  end.

(** *** The assertions the global test setup adds *)

(** [obj.p || obj.q] *)
Definition either_prop (obj : value) (p q : string) : result value :=
  x ← get_prop obj p;
  if truthy x then Return x else get_prop obj q.

(** [expect(obj).to.have.responseTime(expectedTime)] *)
Definition responseTime (obj : value) (expectedTime : Z) : result unit :=
  actualTime ← either_prop obj "duration" "responseTime";
  assert (le_num actualTime expectedTime)
         ("expected response time to be <= " ++ pretty expectedTime
          ++ "ms but got " ++ to_string actualTime ++ "ms").

(** [expect(obj).to.have.successStatus()] *)
Definition successStatus (obj : value) : result unit :=
  status ← either_prop obj "status" "statusCode";
  assert (ge_num status 200 && lt_num status 300)
         ("expected status to be success (2xx) but got "
          ++ to_string status).

(** [expect(obj).to.have.clientErrorStatus()] *)
Definition clientErrorStatus (obj : value) : result unit :=
  status ← either_prop obj "status" "statusCode";
  assert (ge_num status 400 && lt_num status 500)
         ("expected status to be client error (4xx) but got "
          ++ to_string status).

(** *** Further assertions of chai *)

(** [v > n] against a number [n]. *)
Definition gt_num (v : value) (n : Z) : bool :=
  match to_number v with Some x => n <? x | None => false end.

(** [expect(v).to.be.true] *)
Definition true_ (v : value) : result unit :=
  assert (match v with VBool true => true | _ => false end)
         "expected #{this} to be true".

(** The four comparisons [.above(n)], [.at.least(n)], [.below(n)] and
    [.at.most(n)]. *)
Inductive comparison : Type := Above | Least | Below | Most.

Definition comparison_name (c : comparison) : string :=
  match c with
  | Above => "above"
  | Least => "least"
  | Below => "below"
  | Most => "most"
  end.

Definition comparison_words (c : comparison) : string :=
  match c with
  | Above => "above"
  | Least => "at least"
  | Below => "below"
  | Most => "at most"
  end.

Definition holds (c : comparison) (x n : Z) : bool :=
  match c with
  | Above => n <? x
  | Least => n <=? x
  | Below => x <? n
  | Most => x <=? n
  end.

(** How chai shows the subject when it refuses to compare it. *)
Definition print_obj (v : value) : string :=
  match v with
  | VStr s => "'" ++ s ++ "'"
  | _ => to_string v
  end.

(** [expect(v).to.be.above(n)] and the like: a number is compared with a
    number; a number against anything else, and anything else as the
    subject, is refused.  (The model has no dates.) *)
Definition compare (c : comparison) (v n : value) : result unit :=
  match v, n with
  | VNum x, VNum y =>
      assert (holds c x y)
             ("expected #{this} to be " ++ comparison_words c ++ " #{exp}")
  | VNum _, _ =>
      Throw (AssertionError ("the argument to " ++ comparison_name c
                             ++ " must be a number"))
  | _, _ =>
      Throw (AssertionError ("expected " ++ print_obj v
                             ++ " to be a number or a date"))
  end.

(** [v.length c n] as JavaScript compares them. *)
Definition holds_num (c : comparison) (v : value) (n : Z) : bool :=
  match c with
  | Above => gt_num v n
  | Least => ge_num v n
  | Below => lt_num v n
  | Most => le_num v n
  end.

(** [expect(v).to.have.length.above(n)] and the like, for a number [n]:
    the subject must have a [length], which is then compared.  (The
    model has no maps or sets.) *)
Definition length_compare (c : comparison) (v : value) (n : Z)
  : result unit :=
  property v "length" ;;
  itemsCount ← get_prop v "length";
  assert (holds_num c itemsCount n)
         ("expected #{this} to have a length " ++ comparison_words c
          ++ " #{exp} but got #{act}").

(** [expect(v).to.not.be.empty]: a string or an array with a length other
    than zero, an object with at least one own property; any other
    primitive is refused. *)
Definition not_empty (v : value) : result unit :=
  match v with
  | VStr s =>
      assert (negb (Nat.eqb (String.length s) 0))
             "expected #{this} not to be empty"
  | VArr items _ =>
      assert (negb (Nat.eqb (length items) 0))
             "expected #{this} not to be empty"
  | VObj props | VErr _ _ props =>
      assert (negb (Nat.eqb (size props) 0))
             "expected #{this} not to be empty"
  | _ =>
      Throw (AssertionError (".empty was passed non-string primitive "
                             ++ to_string v))
  end.

End Chai.

(* ===================================================================== *)
(** ** test/utils/test-helpers.js: the validators                        *)
(* ===================================================================== *)

Module responseValidations.

Definition validateBasicResponse (response : value) : result unit :=
  Chai.exist response ;;
  Chai.property response "status" ;;
  Chai.property response "body" ;;
  Chai.property response "headers" ;;
  Return ().

Definition validateJsonContentType (response : value) : result unit :=
  headers ← get_prop response "headers";
  Chai.property headers "content-type" ;;
  headers ← get_prop response "headers";
  contentType ← get_prop headers "content-type";
  Chai.include contentType "application/json".

(** [maxTime = 3000] when the argument is left out. *)
Definition validateResponseTime (response : value) (maxTime : option Z)
  : result unit :=
  let maxTime := default 3000 maxTime in
  Chai.responseTime response maxTime.

(** [options = {}] when the argument is left out; [hasNextPage] and
    [hasPreviousPage] are [false] where the options do not give them. *)
Definition option_flag (options : gmap string value) (name : string)
  : value :=
  match options !! name with
  | None | Some VUndefined => VBool false
  | Some v => v
  end.

Definition validatePaginationResponse (response : value)
    (options : option (gmap string value)) : result unit :=
  let options := default ∅ options in
  let hasNextPage := option_flag options "hasNextPage" in
  let hasPreviousPage := option_flag options "hasPreviousPage" in
  (body ← get_prop response "body";
   data ← Chai.property body "data"; Chai.a data "array") ;;
  (body ← get_prop response "body";
   page ← Chai.property body "page"; Chai.a page "number") ;;
  (body ← get_prop response "body";
   per_page ← Chai.property body "per_page"; Chai.a per_page "number") ;;
  (body ← get_prop response "body";
   total ← Chai.property body "total"; Chai.a total "number") ;;
  (body ← get_prop response "body";
   total_pages ← Chai.property body "total_pages";
   Chai.a total_pages "number") ;;
  (if truthy hasNextPage then
     body ← get_prop response "body";
     page ← get_prop body "page";
     body ← get_prop response "body";
     total_pages ← get_prop body "total_pages";
     Chai.compare Chai.Below page total_pages
   else Return ()) ;;
  (if truthy hasPreviousPage then
     body ← get_prop response "body";
     page ← get_prop body "page";
     Chai.compare Chai.Above page (VNum 1)
   else Return ()).

Definition validateErrorResponse (response : value) : result unit :=
  (body ← get_prop response "body";
   error ← Chai.property body "error"; Chai.a error "string") ;;
  body ← get_prop response "body";
  error ← get_prop body "error";
  Chai.not_empty error.

End responseValidations.

Module schemaValidations.

(** [expect(o).to.have.property(name).that.is.a(ty)] *)
Definition property_of_type (o : value) (name ty : string) : result unit :=
  x ← Chai.property o name;
  Chai.a x ty.

Definition validateUserSchema (user : value) : result unit :=
  Chai.a user "object" ;;
  property_of_type user "id" "number" ;;
  property_of_type user "name" "string" ;;
  property_of_type user "username" "string" ;;
  property_of_type user "email" "string" ;;
  property_of_type user "phone" "string" ;;
  property_of_type user "website" "string" ;;
  property_of_type user "address" "object" ;;
  property_of_type user "company" "object".

Definition validatePostSchema (post : value) : result unit :=
  Chai.a post "object" ;;
  property_of_type post "id" "number" ;;
  property_of_type post "title" "string" ;;
  property_of_type post "body" "string" ;;
  property_of_type post "userId" "number".

Definition validateCommentSchema (comment : value) : result unit :=
  Chai.a comment "object" ;;
  property_of_type comment "id" "number" ;;
  property_of_type comment "name" "string" ;;
  property_of_type comment "email" "string" ;;
  property_of_type comment "body" "string" ;;
  property_of_type comment "postId" "number".

End schemaValidations.

(* ===================================================================== *)
(** ** config/test-config.js                                             *)
(* ===================================================================== *)

Module config.

Definition baseUrls_jsonplaceholder : string :=
  "https://jsonplaceholder.typicode.com".
Definition baseUrls_reqres : string := "https://reqres.in/api".

Definition timeout : Z := 10000.

Definition defaultHeaders : gmap string value :=
  {[ "Content-Type" := VStr "application/json";
     "Accept" := VStr "application/json" ]}.

(** Expected response times, in milliseconds. *)
Definition performance_fast : Z := 500.
Definition performance_medium : Z := 1500.
Definition performance_slow : Z := 3000.

End config.

(* ===================================================================== *)
(** ** test/utils/http-client.js                                         *)
(* ===================================================================== *)

Module HttpClient.

(** The fields of an instance. *)
Record t : Type := mk {
  baseUrl : string;
  defaultHeaders : gmap string value;
  timeout : Z
}.

(** [constructor (baseUrl = config.baseUrls.jsonplaceholder)] *)
Definition constructor (baseUrl : option string) : t :=
  {| baseUrl := default config.baseUrls_jsonplaceholder baseUrl;
     defaultHeaders := config.defaultHeaders;
     timeout := config.timeout |}.

(** A setter returns the instance as it is after the assignment. *)
Definition setDefaultHeaders (this : t) (headers : gmap string value) : t :=
  {| baseUrl := baseUrl this;
     defaultHeaders := spread (defaultHeaders this) headers;
     timeout := timeout this |}.

Definition setAuthToken (this : t) (token : value) : t :=
  setDefaultHeaders this
    {[ "Authorization" := VStr ("Bearer " ++ to_string token) ]}.

Definition buildUrl (this : t) (endpoint : value) : string :=
  baseUrl this ++ to_string endpoint.

(** What is handed to superagent for one request: the verb and URL of
    [request.get(url)] and the like, the payload of [.send(data)] where
    there is one, the argument of [.set(..)] and of [.timeout(..)]. *)
Inductive method : Type := GET | POST | PUT | PATCH | DELETE.

Record Request : Type := mkRequest {
  req_method : method;
  req_url : string;
  req_body : option value;
  req_headers : gmap string value;
  req_timeout : Z
}.

Section WithTransport.

(** The outside world: its clock ([Date.now()], in milliseconds) and
    superagent, which settles a request with a response or rejects it
    with an error, and leaves the world in a later state. *)
Context {World : Type}.
Variable Date_now : World → Z.
Variable transport : Request → World → result value * World.

Definition addTimingInfo (response : value) (startTime : Z) (w : World)
  : result value :=
  let endTime := Date_now w in
  set_prop response "duration" (VNum (endTime - startTime)).

(** The error's [response] is updated in place before the error is
    thrown again, so the thrown error shows the updated response. *)
Definition handleError (this : t) (error : value) (startTime : Z)
    (w : World) : result unit :=
  response ← get_prop error "response";
  if truthy response then
    response' ← addTimingInfo response startTime w;
    Throw (seen_through error "response" response')
  else
    timedOut ← get_prop error "timeout";
    if truthy timedOut then
      Throw (new_Error ("Request timeout after " ++ pretty (timeout this)
                        ++ "ms"))
    else
      message ← get_prop error "message";
      Throw (new_Error ("Network error: " ++ to_string message)).

(** The body shared by the five verbs, after the request is built:
<<
  const startTime = Date.now()
  try {
    const response = await request. ...
    return this.addTimingInfo(response, startTime)
  } catch (error) {
    this.handleError(error, startTime)
  }
>>
    A call of [handleError] that returned would let the function end
    and yield [undefined]. *)
Definition timed (this : t) (req : Request) (w : World)
  : result value * World :=
  let startTime := Date_now w in
  let '(settled, w') := transport req w in
  match response ← settled; addTimingInfo response startTime w' with
  | Return response => (Return response, w')
  | Throw error =>
      (handleError this error startTime w' ;; Return VUndefined, w')
  end.

(** [headers = {}] and [data = {}] when the argument is left out. *)
Definition get (this : t) (endpoint : value)
    (headers : option (gmap string value)) : World → result value * World :=
  let headers := default ∅ headers in
  timed this
    (mkRequest GET (buildUrl this endpoint) None
       (spread (defaultHeaders this) headers) (timeout this)).

Definition post (this : t) (endpoint : value) (data : option value)
    (headers : option (gmap string value)) : World → result value * World :=
  let data := default (VObj ∅) data in
  let headers := default ∅ headers in
  timed this
    (mkRequest POST (buildUrl this endpoint) (Some data)
       (spread (defaultHeaders this) headers) (timeout this)).

Definition put (this : t) (endpoint : value) (data : option value)
    (headers : option (gmap string value)) : World → result value * World :=
  let data := default (VObj ∅) data in
  let headers := default ∅ headers in
  timed this
    (mkRequest PUT (buildUrl this endpoint) (Some data)
       (spread (defaultHeaders this) headers) (timeout this)).

Definition patch (this : t) (endpoint : value) (data : option value)
    (headers : option (gmap string value)) : World → result value * World :=
  let data := default (VObj ∅) data in
  let headers := default ∅ headers in
  timed this
    (mkRequest PATCH (buildUrl this endpoint) (Some data)
       (spread (defaultHeaders this) headers) (timeout this)).

Definition delete (this : t) (endpoint : value)
    (headers : option (gmap string value)) : World → result value * World :=
  let headers := default ∅ headers in
  timed this
    (mkRequest DELETE (buildUrl this endpoint) None
       (spread (defaultHeaders this) headers) (timeout this)).

(** Any one of the five, for statements about all of them. *)
Definition call (m : method) (this : t) (endpoint : value)
    (data : option value) (headers : option (gmap string value))
  : World → result value * World :=
  match m with
  | GET => get this endpoint headers
  | POST => post this endpoint data headers
  | PUT => put this endpoint data headers
  | PATCH => patch this endpoint data headers
  | DELETE => delete this endpoint headers
  end.

(** The request a call hands to the transport. *)
Definition request_of (m : method) (this : t) (endpoint : value)
    (data : option value) (headers : option (gmap string value))
  : Request :=
  mkRequest m (buildUrl this endpoint)
    (match m with
     | GET | DELETE => None
     | POST | PUT | PATCH => Some (default (VObj ∅) data)
     end)
    (spread (defaultHeaders this) (default ∅ headers)) (timeout this).

End WithTransport.

End HttpClient.

(* ===================================================================== *)
(** ** BaseApiClient and BasePageObject                                  *)
(* ===================================================================== *)

(** Both classes hold a client and the two validator tables; the methods
    below read nothing else of the instance. *)

Section ExpectClientError.

Context {World : Type}.

(** The method body that the two classes share word for word:
<<
    try {
      await requestFn()
      throw new Error('Expected request to fail but it succeeded')
    } catch (error) {
      if (error.response) {
        expect(error.response).to.have.clientErrorStatus()
        expect(error.response.status).to.equal(expectedStatus)
        return error.response
      }
      throw error
    }
>>
    with [expectedStatus = 400] when the argument is left out. *)
Definition expectClientError_body
    (requestFn : World → result value * World)
    (expectedStatus : option Z) (w : World) : result value * World :=
  let expectedStatus := default 400 expectedStatus in
  let '(settled, w') := requestFn w in
  let caught :=
    match settled with
    | Return _ => new_Error "Expected request to fail but it succeeded"
    | Throw error => error
    end in
  (response ← get_prop caught "response";
   if truthy response then
     Chai.clientErrorStatus response ;;
     status ← get_prop response "status";
     Chai.equal status expectedStatus ;;
     Return response
   else Throw caught,
   w').

End ExpectClientError.

Module BaseApiClient.

(** [expectedStatus = 200] when the argument is left out. *)
Definition validateSuccessResponse (response : value)
    (expectedStatus : option Z) : result value :=
  let expectedStatus := default 200 expectedStatus in
  responseValidations.validateBasicResponse response ;;
  status ← get_prop response "status";
  Chai.equal status expectedStatus ;;
  (if expectedStatus <? 400
   then responseValidations.validateJsonContentType response
   else Return ()) ;;
  get_prop response "body".

Definition validateResponseTime (response : value) (maxTime : option Z)
  : result unit :=
  let maxTime := default 3000 maxTime in
  responseValidations.validateResponseTime response (Some maxTime).

Definition expectClientError {World : Type}
    (requestFn : World → result value * World)
    (expectedStatus : option Z) : World → result value * World :=
  expectClientError_body requestFn expectedStatus.

End BaseApiClient.

Module BasePageObject.

Definition validateAndGetBody (response : value)
    (expectedStatus : option Z) : result value :=
  let expectedStatus := default 200 expectedStatus in
  responseValidations.validateBasicResponse response ;;
  status ← get_prop response "status";
  Chai.equal status expectedStatus ;;
  (if expectedStatus <? 400
   then responseValidations.validateJsonContentType response
   else Return ()) ;;
  get_prop response "body".

Definition validateResponseTime (response : value) (maxTime : option Z)
  : result unit :=
  let maxTime := default 3000 maxTime in
  responseValidations.validateResponseTime response (Some maxTime).

Definition validateSuccessResponse (response : value)
    (expectedStatus : option Z) : result value :=
  let expectedStatus := default 200 expectedStatus in
  body ← validateAndGetBody response (Some expectedStatus);
  validateResponseTime response None ;;
  Return body.

Definition expectClientError {World : Type}
    (requestFn : World → result value * World)
    (expectedStatus : option Z) : World → result value * World :=
  expectClientError_body requestFn expectedStatus.

(** [expectedStatus = 400] when the argument is left out.  The validator
    is handed the body, not the response. *)
Definition validateErrorResponse (response : value)
    (expectedStatus : option Z) : result value :=
  let expectedStatus := default 400 expectedStatus in
  body ← validateAndGetBody response (Some expectedStatus);
  responseValidations.validateErrorResponse body ;;
  Return body.

End BasePageObject.

(* ===================================================================== *)
(** ** test/utils/test-helpers.js: retry                                 *)
(* ===================================================================== *)

(** What a run of [retry] does to its surroundings, in program order. *)
Inductive event : Type :=
| Invoked              (* a call of [fn] *)
| Slept (ms : Z).      (* a call of [sleep] *)

(** How a run ends: the completion, the world it leaves, and what it did. *)
Record run (World : Type) : Type := mkRun {
  outcome : result value;
  world : World;
  trace : list event
}.
Arguments mkRun {World} _ _ _.
Arguments outcome {World} _.
Arguments world {World} _.
Arguments trace {World} _.

(** A value together with the fact that it is the value of the inspected
    term: keeps the loop condition at hand in the branch it selects. *)
Definition inspect {A : Type} (x : A) : {y : A | x = y} := exist _ x eq_refl.

Section Retry.

Context {World : Type}.
(** [sleep(ms)] lets time pass; whatever that does to the world. *)
Variable sleep : Z → World → World.
(** The operation: every call settles, with a value or an error. *)
Variable fn : World → result value * World.
Variables maxRetries delay : Z.

(** The loop, entered with the counter at [i]:
<<
    for (let i = 0; i <= maxRetries; i++) {
      try {
        return await fn()
      } catch (error) {
        lastError = error
        if (i === maxRetries) {
          throw lastError
        }
        await sleep(delay * Math.pow(2, i))
      }
    }
>>
    Leaving the loop by its condition ends the function, which then
    yields [undefined]. *)
Equations? retry_from (i : Z) (w : World) : run World
  by wf (Z.to_nat (maxRetries + 1 - i)) lt :=
  retry_from i w with inspect (i <=? maxRetries) := {
    | exist _ false _ => mkRun (Return VUndefined) w []
    | exist _ true Hle with fn w := {
        | (Return v, w') => mkRun (Return v) w' [Invoked]
        | (Throw error, w') =>
            let lastError := error in
            if i =? maxRetries then mkRun (Throw lastError) w' [Invoked]
            else
              let ms := delay * 2 ^ i in
              let rest := retry_from (i + 1) (sleep ms w') in
              mkRun (outcome rest) (world rest)
                    (Invoked :: Slept ms :: trace rest)
      }
  }.
Proof. apply Z.leb_le in Hle. lia. Qed.

End Retry.

(** [async function retry (fn, maxRetries = 3, delay = 1000)] *)
Definition retry {World : Type} (sleep : Z → World → World)
    (fn : World → result value * World) (maxRetries delay : option Z)
    (w : World) : run World :=
  let maxRetries := default 3 maxRetries in
  let delay := default 1000 delay in
  retry_from sleep fn maxRetries delay 0 w.

(** [BasePageObject.requestWithRetry(requestFn, maxRetries = 3)]: the
    base delay is left to [retry]. *)
Definition requestWithRetry {World : Type} (sleep : Z → World → World)
    (requestFn : World → result value * World) (maxRetries : option Z)
    (w : World) : run World :=
  let maxRetries := default 3 maxRetries in
  retry sleep requestFn (Some maxRetries) None w.

(* ===================================================================== *)
(** ** Arrays                                                            *)
(* ===================================================================== *)

(** [items.forEach(f)]: the elements in order, up to the first one for
    which [f] throws. *)
Fixpoint for_each {A : Type} (f : A → result unit) (items : list A)
  : result unit :=
  match items with
  | [] => Return ()
  | x :: rest => f x ;; for_each f rest
  end.

(** [xs.forEach(f)] where [xs] is written [name] in the source. *)
Definition forEach (name : string) (xs : value) (f : value → result unit)
  : result unit :=
  match xs with
  | VArr items _ => for_each f items
  | VUndefined | VNull => _ ← get_prop xs "forEach"; Return ()
  | _ => Throw (new_TypeError (name ++ ".forEach is not a function"))
  end.

(* ===================================================================== *)
(** ** test/utils/data-generators.js: isValidEmail                       *)
(* ===================================================================== *)

Module DataGenerators.

(** Regular expressions, as far as [emailRegex] needs them, over strings
    of code units below 256. *)
Inductive regex : Type :=
| Never
| Eps
| Chars (p : ascii → bool)
| Cat (r1 r2 : regex)
| Alt (r1 r2 : regex)
| Star (r : regex).

(** [r+] *)
Definition Plus (r : regex) : regex := Cat r (Star r).

Fixpoint nullable (r : regex) : bool :=
  match r with
  | Never => false
  | Eps => true
  | Chars _ => false
  | Cat r1 r2 => nullable r1 && nullable r2
  | Alt r1 r2 => nullable r1 || nullable r2
  | Star _ => true
  end.

(** What is left of [r] to match once [a] has been read. *)
Fixpoint deriv (a : ascii) (r : regex) : regex :=
  match r with
  | Never | Eps => Never
  | Chars p => if p a then Eps else Never
  | Cat r1 r2 =>
      if nullable r1
      then Alt (Cat (deriv a r1) r2) (deriv a r2)
      else Cat (deriv a r1) r2
  | Alt r1 r2 => Alt (deriv a r1) (deriv a r2)
  | Star r1 => Cat (deriv a r1) (Star r1)
  end.

(** [/^r$/.test(s)] *)
Fixpoint test (r : regex) (s : string) : bool :=
  match s with
  | EmptyString => nullable r
  | String a rest => test (deriv a r) rest
  end.

(** [\s] among the code units below 256: tab, line feed, vertical tab,
    form feed, carriage return, space, no-break space. *)
Definition is_white_space (a : ascii) : bool :=
  let n := nat_of_ascii a in
  existsb (Nat.eqb n) [9; 10; 11; 12; 13; 32; 160]%nat.

(** [[^\s@]] *)
Definition not_space_or_at (a : ascii) : bool :=
  negb (is_white_space a || Ascii.eqb a "@").

(** [/^[^\s@]+@[^\s@]+\.[^\s@]+$/] *)
Definition emailRegex : regex :=
  Cat (Plus (Chars not_space_or_at))
    (Cat (Chars (Ascii.eqb "@"))
       (Cat (Plus (Chars not_space_or_at))
          (Cat (Chars (Ascii.eqb "."))
             (Plus (Chars not_space_or_at))))).

(** [emailRegex.test(email)] converts its argument to a string. *)
Definition isValidEmail (email : value) : bool :=
  test emailRegex (to_string email).

End DataGenerators.

(* ===================================================================== *)
(** ** The resource clients                                              *)
(* ===================================================================== *)

(** Each resource client is a [BaseApiClient] with its own [endpoint];
    its [client] is the [HttpClient] the constructor made, as it is at
    the time of the call. *)

Module UsersApiClient.

Definition endpoint : string := "/users".

(** [super(config.baseUrls.jsonplaceholder, '/users')] *)
Definition constructor : HttpClient.t :=
  HttpClient.constructor (Some config.baseUrls_jsonplaceholder).

Section WithTransport.

Context {World : Type}.
Variable Date_now : World → Z.
Variable transport : HttpClient.Request → World → result value * World.
Variable client : HttpClient.t.

Definition getAll (w : World) : result value * World :=
  let '(settled, w') :=
    HttpClient.get Date_now transport client (VStr endpoint) None w in
  (response ← settled;
   users ← BaseApiClient.validateSuccessResponse response None;
   Chai.a users "array" ;;
   Chai.length_compare Chai.Above users 0 ;;
   forEach "users" users schemaValidations.validateUserSchema ;;
   Return users,
   w').

Definition getById (userId : Z) (w : World) : result value * World :=
  let '(settled, w') :=
    HttpClient.get Date_now transport client
      (VStr (endpoint ++ "/" ++ pretty userId)) None w in
  (response ← settled;
   user ← BaseApiClient.validateSuccessResponse response None;
   schemaValidations.validateUserSchema user ;;
   id ← get_prop user "id";
   Chai.equal id userId ;;
   Return user,
   w').

Definition verifyNotFound (userId : Z) : World → result value * World :=
  BaseApiClient.expectClientError
    (HttpClient.get Date_now transport client
       (VStr (endpoint ++ "/" ++ pretty userId)) None)
    (Some 404).

End WithTransport.

End UsersApiClient.

(** The page object of the users: a [BasePageObject] with the endpoint
    [/users]. *)
Module UsersPageObject.

Definition endpoint : string := "/users".

(** [super(config.baseUrls.jsonplaceholder)] *)
Definition constructor : HttpClient.t :=
  HttpClient.constructor (Some config.baseUrls_jsonplaceholder).

Section WithTransport.

Context {World : Type}.
Variable Date_now : World → Z.
Variable transport : HttpClient.Request → World → result value * World.
Variable client : HttpClient.t.

(** [maxResponseTime = config.performance.fast] when the argument is left
    out. *)
Definition getAllUsersWithPerformanceCheck (maxResponseTime : option Z)
    (w : World) : result value * World :=
  let maxResponseTime := default config.performance_fast maxResponseTime in
  let '(settled, w') :=
    HttpClient.get Date_now transport client (VStr endpoint) None w in
  (response ← settled;
   users ← BasePageObject.validateSuccessResponse response None;
   BasePageObject.validateResponseTime response (Some maxResponseTime) ;;
   Return users,
   w').

End WithTransport.

End UsersPageObject.

Module PostsApiClient.

Definition endpoint : string := "/posts".

Section WithTransport.

Context {World : Type}.
Variable Date_now : World → Z.
Variable transport : HttpClient.Request → World → result value * World.
(** [String.prototype.localeCompare], which the engine supplies. *)
Variable localeCompare : string → string → Z.
Variable client : HttpClient.t.

(** One round of the loop of [getSorted]:
<<
    const current = posts[i][sortField]
    const previous = posts[i - 1][sortField]

    if (typeof current === 'string' && typeof previous === 'string') {
      if (sortOrder === 'asc') {
        expect(current.localeCompare(previous)).to.be.at.least(-1)
      } else {
        expect(current.localeCompare(previous)).to.be.at.most(1)
      }
    } else {
      if (sortOrder === 'asc') {
        expect(current).to.be.at.least(previous)
      } else {
        expect(current).to.be.at.most(previous)
      }
    }
>> *)
Definition sorting_round (posts : list value) (sortField sortOrder : string)
    (i : nat) : result unit :=
  current ← get_prop (default VUndefined (posts !! i)) sortField;
  previous ← get_prop (default VUndefined (posts !! (i - 1)%nat)) sortField;
  match current, previous with
  | VStr c, VStr p =>
      if String.eqb sortOrder "asc"
      then Chai.compare Chai.Least (VNum (localeCompare c p)) (VNum (-1))
      else Chai.compare Chai.Most (VNum (localeCompare c p)) (VNum 1)
  | _, _ =>
      if String.eqb sortOrder "asc"
      then Chai.compare Chai.Least current previous
      else Chai.compare Chai.Most current previous
  end.

(** The check of the order:
<<
    if (posts.length > 1) {
      for (let i = 1; i < Math.min(posts.length, 10); i++) { ... }
    }
>> *)
Definition validateSorting (posts : list value) (sortField sortOrder : string)
  : result unit :=
  if (1 <? length posts)%nat
  then for_each (sorting_round posts sortField sortOrder)
         (seq 1 (Nat.min (length posts) 10 - 1))
  else Return ().

(** [sortField = 'id'] and [sortOrder = 'asc'] when left out. *)
Definition getSorted (sortField sortOrder : option string) (w : World)
  : result value * World :=
  let sortField := default "id" sortField in
  let sortOrder := default "asc" sortOrder in
  let '(settled, w') :=
    HttpClient.get Date_now transport client
      (VStr (endpoint ++ "?_sort=" ++ sortField ++ "&_order=" ++ sortOrder))
      None w in
  (response ← settled;
   posts ← BaseApiClient.validateSuccessResponse response None;
   Chai.a posts "array" ;;
   match posts with
   | VArr items _ => validateSorting items sortField sortOrder
   | _ => Return ()  (* not reached: the assertion before has thrown *)
   end ;;
   Return posts,
   w').



(** [page = 1] and [limit = 10] when left out. *)
Definition getWithPagination (page limit : option Z) (w : World)
  : result value * World :=
  let page := default 1 page in
  let limit := default 10 limit in
  let '(settled, w') :=
    HttpClient.get Date_now transport client
      (VStr (endpoint ++ "?_page=" ++ pretty page ++ "&_limit="
             ++ pretty limit)) None w in
  (response ← settled;
   posts ← BaseApiClient.validateSuccessResponse response None;
   Chai.a posts "array" ;;
   Chai.length_compare Chai.Most posts limit ;;
   forEach "posts" posts schemaValidations.validatePostSchema ;;
   Return posts,
   w').

End WithTransport.

End PostsApiClient.

Module CommentsApiClient.

Definition validateEmail (comment : value) : result value :=
  email ← get_prop comment "email";
  Chai.true_ (VBool (DataGenerators.isValidEmail email)) ;;
  Return (VBool true).

End CommentsApiClient.

(* ===================================================================== *)
(** ** Sample data used by the closed statements below                   *)
(* ===================================================================== *)

Module Samples.

Definition json_headers : value :=
  VObj {[ "content-type" := VStr "application/json; charset=utf-8" ]}.

(** A response as superagent resolves with it, before the client adds
    its timing. *)
Definition ok_response : value :=
  VObj {[ "status" := VNum 200;
          "body" := VArr [] ∅;
          "headers" := json_headers ]}.

(** A reply that took no measurable time, as the client returns it. *)
Definition instant_response : value :=
  VObj {[ "status" := VNum 200;
          "body" := VArr [] ∅;
          "headers" := json_headers;
          "duration" := VNum 0 ]}.

(** A reply that took five seconds, as the client returns it. *)
Definition slow_response : value :=
  VObj {[ "status" := VNum 200;
          "body" := VArr [] ∅;
          "headers" := json_headers;
          "duration" := VNum 5000 ]}.

Definition not_found_response : gmap string value :=
  {[ "status" := VNum 404; "body" := VObj ∅; "headers" := json_headers ]}.

(** The error superagent rejects with on a 404 reply. *)
Definition not_found_error : value :=
  VErr ErrorC "Not Found"
    {[ "status" := VNum 404; "response" := VObj not_found_response ]}.

(** The error superagent rejects with when its timer fires. *)
Definition timeout_error : value :=
  VErr ErrorC "Timeout of 10000ms exceeded"
    {[ "timeout" := VNum 10000; "code" := VStr "ECONNABORTED" ]}.

(** A failure below HTTP. *)
Definition refused_error : value :=
  VErr ErrorC "connect ECONNREFUSED 127.0.0.1:80"
    {[ "code" := VStr "ECONNREFUSED" ]}.

Definition user : value :=
  VObj {[ "id" := VNum 1;
          "name" := VStr "Leanne Graham";
          "username" := VStr "Bret";
          "email" := VStr "Sincere@april.biz";
          "phone" := VStr "1-770-736-8031 x56442";
          "website" := VStr "hildegard.org";
          "address" := VObj {[ "city" := VStr "Gwenborough" ]};
          "company" := VObj {[ "name" := VStr "Romaguera-Crona" ]};
          "nickname" := VStr "lg" ]}.

Definition client : HttpClient.t := HttpClient.constructor None.

(** A world that is a clock and the URLs requested so far; a transport
    that takes 15 ms and answers every request with [ok_response]. *)
Definition LoggedWorld : Type := Z * list string.
Definition logged_now (w : LoggedWorld) : Z := fst w.
Definition answering (req : HttpClient.Request) (w : LoggedWorld)
  : result value * LoggedWorld :=
  (Return ok_response, (fst w + 15, (snd w ++ [HttpClient.req_url req])%list)).

(** A world that is just a clock; a transport that takes 120 ms and
    rejects every request with the given error. *)
Definition rejecting (error : value) (req : HttpClient.Request) (w : Z)
  : result value * Z :=
  (Throw error, w + 120).

(** An operation that fails on its first two calls (the world counts
    the calls) and succeeds from the third on; one that always fails. *)
Definition flaky (w : nat) : result value * nat :=
  if (w <? 2)%nat
  then (Throw (new_Error ("attempt " ++ pretty w)), S w)
  else (Return (VStr "done"), S w).
Definition hopeless (w : nat) : result value * nat :=
  (Throw (new_Error ("attempt " ++ pretty w)), S w).
Definition no_effect (ms : Z) (w : nat) : nat := w.

(** A world that is just a clock; a transport that answers every request
    with [ok_response] while the clock is set back by 5 ms (as a
    correction of the system time does), and one that rejects every
    request with the given error meanwhile. *)
Definition set_back (req : HttpClient.Request) (w : Z) : result value * Z :=
  (Return ok_response, w - 5).
Definition set_back_rejecting (error : value) (req : HttpClient.Request)
    (w : Z) : result value * Z :=
  (Throw error, w - 5).

(** How a server settles a request, given the time: with [ok_response],
    15 ms later. *)
Definition serving (req : HttpClient.Request) (now : Z) : result value * Z :=
  (Return ok_response, now + 15).


End Samples.

Module MoreSamples.

(** The reply of reqres to a login without password. *)
Definition missing_password_response : value :=
  VObj {[ "status" := VNum 400;
          "body" := VObj {[ "error" := VStr "Missing password" ]};
          "headers" := Samples.json_headers ]}.

(** The last of two pages of a listing. *)
Definition last_page_response : value :=
  VObj {[ "status" := VNum 200;
          "body" := VObj {[ "page" := VNum 2;
                            "per_page" := VNum 6;
                            "total" := VNum 12;
                            "total_pages" := VNum 2;
                            "data" := VArr [] ∅ ]};
          "headers" := Samples.json_headers ]}.

(** A listing of one user, and of none, as JSONPlaceholder would send
    them. *)
Definition users_response (users : list value) : value :=
  VObj {[ "status" := VNum 200;
          "body" := VArr users ∅;
          "headers" := Samples.json_headers ]}.

(** A transport that takes 15 ms and answers every request with the
    given response. *)
Definition replying (response : value) (req : HttpClient.Request) (w : Z)
  : result value * Z :=
  (Return response, w + 15).

(** A transport that takes [ms] milliseconds to answer. *)
Definition replying_after (ms : Z) (response : value)
    (req : HttpClient.Request) (w : Z) : result value * Z :=
  (Return response, w + ms).

(** A listing of posts, as JSONPlaceholder would send it. *)
Definition posts_response (posts : list value) : value :=
  VObj {[ "status" := VNum 200;
          "body" := VArr posts ∅;
          "headers" := Samples.json_headers ]}.

(** Posts with titles that are not in order, and a [localeCompare] that
    answers with -1, 0 or 1, as V8 does. *)
Definition titled (id : Z) (title : string) : value :=
  VObj {[ "id" := VNum id; "title" := VStr title;
          "body" := VStr "text"; "userId" := VNum 1 ]}.

Definition unsorted_titles : list value :=
  [titled 1 "zebra"; titled 2 "apple"; titled 3 "mango"].

Definition sign_compare (a b : string) : Z :=
  match String.compare a b with
  | Lt => -1
  | Eq => 0
  | Gt => 1
  end.



End MoreSamples.

(* ===================================================================== *)
(** ** Vocabulary of the statements                                      *)
(* ===================================================================== *)

(** An assertion of chai either passes or throws an [AssertionError]. *)
Definition passes_or_fails {A} (r : result A) : Prop :=
  (∃ x, r = Return x) ∨ (∃ msg, r = Throw (Chai.AssertionError msg)).

(** The fields of a User. *)
Definition user_fields : list string :=
  ["id"; "name"; "username"; "email"; "phone"; "website"; "address";
   "company"].

(** The two kinds of failure that come with a response, and the range of
    status codes of each. *)
Inductive response_kind : Type := client_error | server_error.

Definition status_range (k : response_kind) : Z * Z :=
  match k with
  | client_error => (400, 500)
  | server_error => (500, 600)
  end.

Definition status_in (k : response_kind) (response : value) : Prop :=
  ∃ s, get_prop response "status" = Return (VNum s)
       ∧ (status_range k).1 ≤ s < (status_range k).2.

(** An error is of kind [k] when it carries a response with a status in
    the range of [k]. *)
Definition of_kind (k : response_kind) (e : value) : Prop :=
  ∃ response, get_prop e "response" = Return response ∧ status_in k response.

(** A world that is a clock and the requests handed to the transport so
    far, in the order in which they were handed over. *)
Definition Wire : Type := Z * list HttpClient.Request.
Definition wire_now (w : Wire) : Z := w.1.
Definition handed (w : Wire) : list HttpClient.Request := w.2.

(** A transport over [Wire]: it notes the request it is handed, and
    settles it as [serve] says, which also tells the time afterwards. *)
Definition noting (serve : HttpClient.Request → Z → result value * Z)
    (req : HttpClient.Request) (w : Wire) : result value * Wire :=
  ((serve req w.1).1, ((serve req w.1).2, (w.2 ++ [req])%list)).

(** The instance after the header settings [hs], one after the other. *)
Definition after_settings (this : HttpClient.t)
    (hs : list (gmap string value)) : HttpClient.t :=
  foldl HttpClient.setDefaultHeaders this hs.

(** The sum of a list of numbers. *)
Definition total (l : list Z) : Z := foldr Z.add 0 l.

Section RetryVocabulary.

Context {World : Type}.
Variable sleep : Z → World → World.
Variable fn : World → result value * World.
Variable delay : Z.

(** The world in which the call with index [i + j] takes place, when
    the call with index [i] takes place in [w] and the [j] calls from
    there on fail: each failed call is followed by its sleep. *)
Fixpoint world_from (i : Z) (j : nat) (w : World) : World :=
  match j with
  | O => w
  | S j' => world_from (i + 1) j' (sleep (delay * 2 ^ i) (fn w).2)
  end.

(** The completion of the call with index [j] (counted from zero) of a
    run that starts in [w], the calls before it having failed. *)
Definition attempt (j : nat) (w : World) : result value :=
  (fn (world_from 0 j w)).1.

(** What [n] failed calls from index [i] on leave in the trace. *)
Fixpoint backoff_from (i : Z) (n : nat) : list event :=
  match n with
  | O => []
  | S n' => Invoked :: Slept (delay * 2 ^ i) :: backoff_from (i + 1) n'
  end.

(** The number of calls of [fn] in a trace; the sleeps of a trace. *)
Fixpoint invocations (t : list event) : nat :=
  match t with
  | [] => 0
  | Invoked :: t' => S (invocations t')
  | Slept _ :: t' => invocations t'
  end.

Fixpoint delays (t : list event) : list Z :=
  match t with
  | [] => []
  | Invoked :: t' => delays t'
  | Slept ms :: t' => ms :: delays t'
  end.

End RetryVocabulary.

(** The strings a regular expression matches. *)
Inductive matches : DataGenerators.regex → string → Prop :=
| matches_eps : matches DataGenerators.Eps ""
| matches_chars p a :
    p a = true → matches (DataGenerators.Chars p) (String a "")
| matches_cat r1 r2 s1 s2 :
    matches r1 s1 → matches r2 s2 →
    matches (DataGenerators.Cat r1 r2) (s1 ++ s2)
| matches_alt_l r1 r2 s :
    matches r1 s → matches (DataGenerators.Alt r1 r2) s
| matches_alt_r r1 r2 s :
    matches r2 s → matches (DataGenerators.Alt r1 r2) s
| matches_star_nil r : matches (DataGenerators.Star r) ""
| matches_star_cons r s1 s2 :
    matches r s1 → matches (DataGenerators.Star r) s2 →
    matches (DataGenerators.Star r) (s1 ++ s2).

(** Every character of [s] satisfies [p]. *)
Fixpoint all_chars (p : ascii → bool) (s : string) : bool :=
  match s with
  | EmptyString => true
  | String a rest => p a && all_chars p rest
  end.

(** A part of an address: not empty, and without white space or [@]. *)
Definition address_part (s : string) : Prop :=
  s ≠ "" ∧ all_chars DataGenerators.not_space_or_at s = true.

(** [local@domain.tail], each of the three an [address_part]. *)
Definition address_shape (s : string) : Prop :=
  ∃ l d t, s = l ++ "@" ++ d ++ "." ++ t
           ∧ address_part l ∧ address_part d ∧ address_part t.

(* ===================================================================== *)
(** ** Properties of values                                              *)
(* ===================================================================== *)

Lemma get_prop_set_duration (v v' x : value) :
  set_prop v "duration" x = Return v' →
  get_prop v' "duration" = Return x.
Proof.
  destruct v; simpl; intros [= <-]; simpl;
    by rewrite ?lookup_insert_eq.
Qed.

Lemma get_prop_set_other (v v' x : value) (k k' : string) :
  set_prop v k x = Return v' → k' ≠ k →
  get_prop v' k' = get_prop v k'.
Proof.
  destruct v; simpl; intros [= <-] Hne; simpl;
    by rewrite ?lookup_insert_ne.
Qed.

Lemma get_response_seen_through (error r x : value) :
  get_prop error "response" = Return r → truthy r = true →
  get_prop (seen_through error "response" x) "response" = Return x.
Proof.
  destruct error; simpl; try (intros [= <-]; done); try done;
    by rewrite ?lookup_insert_eq.
Qed.

(* ===================================================================== *)
(** ** Properties of the sequencing of assertions                        *)
(* ===================================================================== *)

Lemma bind_Return_inv {A B} (r : result A) (k : A → result B) (b : B) :
  r ≫= k = Return b → ∃ x, r = Return x ∧ k x = Return b.
Proof. destruct r as [x|e]; [by exists x | done]. Qed.

Lemma bind_Throw_inv {A B} (r : result A) (k : A → result B) (e : value) :
  r ≫= k = Throw e → r = Throw e ∨ ∃ x, r = Return x ∧ k x = Throw e.
Proof.
  destruct r as [x|e']; simpl; [right; by exists x | intros [= ->]; by left].
Qed.

Lemma assert_passes_or_fails cond msg :
  passes_or_fails (Chai.assert cond msg).
Proof. destruct cond; [left | right]; eauto. Qed.

Lemma bind_passes_or_fails {A B} (r : result A) (k : A → result B) :
  passes_or_fails r → (∀ x, r = Return x → passes_or_fails (k x)) →
  passes_or_fails (r ≫= k).
Proof.
  intros [[x ->] | [msg ->]] Hk; [by apply Hk | right; by exists msg].
Qed.

Lemma get_prop_defined v k :
  match v with VUndefined | VNull => False | _ => True end →
  ∃ x, get_prop v k = Return x.
Proof. destruct v; simpl; intros ?; repeat case_match; by eauto. Qed.

Lemma property_passes_or_fails v name :
  passes_or_fails (Chai.property v name).
Proof.
  unfold Chai.property.
  apply bind_passes_or_fails; [apply assert_passes_or_fails |].
  intros [] Hdefined.
  apply bind_passes_or_fails; [apply assert_passes_or_fails |].
  intros [] _. left. apply get_prop_defined.
  by destruct v.
Qed.

Lemma property_Return_inv v name x :
  Chai.property v name = Return x →
  has_property v name = true ∧ get_prop v name = Return x.
Proof.
  unfold Chai.property. intros H.
  apply bind_Return_inv in H as (? & _ & H).
  apply bind_Return_inv in H as (? & Hhas & H).
  split; [| done].
  unfold Chai.assert in Hhas. by destruct (has_property v name).
Qed.

Lemma property_of_type_passes_or_fails o name ty :
  passes_or_fails (schemaValidations.property_of_type o name ty).
Proof.
  apply bind_passes_or_fails; [apply property_passes_or_fails |].
  intros x _. apply assert_passes_or_fails.
Qed.

Lemma property_of_type_Return_inv o name ty :
  schemaValidations.property_of_type o name ty = Return () →
  has_property o name = true.
Proof.
  intros H. apply bind_Return_inv in H as (x & H & _).
  by apply property_Return_inv in H as [? _].
Qed.

Lemma property_of_type_ok props name ty x :
  props !! name = Some x → Chai.type x = ty →
  schemaValidations.property_of_type (VObj props) name ty = Return ().
Proof.
  intros Hx <-. unfold schemaValidations.property_of_type, Chai.property.
  simpl. rewrite Hx. simpl.
  unfold Chai.a. by rewrite String.eqb_refl.
Qed.

(* ===================================================================== *)
(** ** Schema validation                                                 *)
(* ===================================================================== *)

Lemma validateUserSchema_passes_or_fails u :
  passes_or_fails (schemaValidations.validateUserSchema u).
Proof.
  unfold schemaValidations.validateUserSchema.
  repeat (apply bind_passes_or_fails;
          [first [apply assert_passes_or_fails
                 | apply property_of_type_passes_or_fails] | intros _ _]).
  apply property_of_type_passes_or_fails.
Qed.

Lemma validateUserSchema_Return_inv u f :
  schemaValidations.validateUserSchema u = Return () →
  f ∈ user_fields → has_property u f = true.
Proof.
  unfold schemaValidations.validateUserSchema. intros H Hf.
  apply bind_Return_inv in H as (? & _ & H).
  repeat (apply bind_Return_inv in H as ([] & ?%property_of_type_Return_inv & H)).
  apply property_of_type_Return_inv in H.
  unfold user_fields in Hf.
  repeat (apply elem_of_cons in Hf as [-> | Hf]; [done |]).
  by apply elem_of_nil in Hf.
Qed.

(** C8.  The User schema validator throws an assertion failure for every
    value that lacks one of the eight fields [id], [name], [username],
    [email], [phone], [website], [address], [company]; and it completes
    for every object that has all eight with [id] a number, [name],
    [username], [email], [phone] and [website] strings, [address] and
    [company] objects, whatever else the object carries. *)
Theorem validateUserSchema_required_fields (u : value) :
  (∀ f, f ∈ user_fields → has_property u f = false →
        ∃ msg, schemaValidations.validateUserSchema u
               = Throw (Chai.AssertionError msg))
  ∧ (∀ props id name username email phone website address company,
        u = VObj props →
        props !! "id" = Some (VNum id) →
        props !! "name" = Some (VStr name) →
        props !! "username" = Some (VStr username) →
        props !! "email" = Some (VStr email) →
        props !! "phone" = Some (VStr phone) →
        props !! "website" = Some (VStr website) →
        props !! "address" = Some (VObj address) →
        props !! "company" = Some (VObj company) →
        schemaValidations.validateUserSchema u = Return ()).
Proof.
  split.
  - intros f Hf Hlacks.
    destruct (validateUserSchema_passes_or_fails u) as [[[] Hok] | Hfail];
      [| done].
    apply (validateUserSchema_Return_inv u f) in Hok; [congruence | done].
  - intros props id name username email phone website address company
      -> Hid Hname Husername Hemail Hphone Hwebsite Haddress Hcompany.
    unfold schemaValidations.validateUserSchema.
    rewrite (property_of_type_ok _ _ _ _ Hid), (property_of_type_ok _ _ _ _ Hname),
      (property_of_type_ok _ _ _ _ Husername), (property_of_type_ok _ _ _ _ Hemail),
      (property_of_type_ok _ _ _ _ Hphone), (property_of_type_ok _ _ _ _ Hwebsite),
      (property_of_type_ok _ _ _ _ Haddress), (property_of_type_ok _ _ _ _ Hcompany);
      done.
Qed.

Lemma validateUserSchema_required_fields_witness :
  (∃ msg, schemaValidations.validateUserSchema
            (VObj {[ "id" := VNum 7; "name" := VStr "x" ]})
          = Throw (Chai.AssertionError msg))
  ∧ schemaValidations.validateUserSchema Samples.user = Return ().
Proof.
  split.
  - apply (proj1 (validateUserSchema_required_fields
                    (VObj {[ "id" := VNum 7; "name" := VStr "x" ]}))
             "email"); [| reflexivity].
    unfold user_fields. repeat constructor.
  - eapply (proj2 (validateUserSchema_required_fields Samples.user));
      reflexivity.
Defined.

(* ===================================================================== *)
(** ** The response time check                                           *)
(* ===================================================================== *)

(** A recorded duration other than zero is compared with the bound. *)
Lemma validateResponseTime_nonzero props d max :
  props !! "duration" = Some (VNum d) → d ≠ 0 →
  responseValidations.validateResponseTime (VObj props) (Some max)
  = Chai.assert (d <=? max)
      ("expected response time to be <= " ++ pretty max ++ "ms but got "
       ++ pretty d ++ "ms").
Proof.
  intros Hd Hnz.
  unfold responseValidations.validateResponseTime, Chai.responseTime,
    Chai.either_prop. simpl. rewrite Hd. simpl.
  by rewrite (proj2 (Z.eqb_neq d 0) Hnz).
Qed.

Lemma validateResponseTime_nonzero_iff props d max :
  props !! "duration" = Some (VNum d) → d ≠ 0 →
  responseValidations.validateResponseTime (VObj props) (Some max) = Return ()
  ↔ d ≤ max.
Proof.
  intros Hd Hnz. rewrite (validateResponseTime_nonzero _ _ _ Hd Hnz).
  unfold Chai.assert. destruct (Z.leb_spec d max); split; try done; lia.
Qed.

(** C3, at a recorded duration of zero.  [obj.duration || obj.responseTime]
    passes over a duration of [0] because [0] is falsy, finds no
    [responseTime], and the comparison [undefined <= max] is false: for a
    response whose recorded duration is [0] the check throws whatever the
    bound, although [0 <= max] for every bound from zero on. *)
Theorem validateResponseTime_zero_duration_throws
    (props : gmap string value) (max : Z) :
  props !! "duration" = Some (VNum 0) →
  props !! "responseTime" = None →
  responseValidations.validateResponseTime (VObj props) (Some max)
  = Throw (Chai.AssertionError
             ("expected response time to be <= " ++ pretty max
              ++ "ms but got undefinedms")).
Proof.
  intros Hduration Hnone.
  unfold responseValidations.validateResponseTime, Chai.responseTime,
    Chai.either_prop.
  simpl. rewrite Hduration. simpl. by rewrite Hnone.
Qed.

Lemma validateResponseTime_zero_duration_throws_witness :
  (0 ≤ 3000)
  ∧ responseValidations.validateResponseTime Samples.instant_response
      (Some 3000)
    = Throw (Chai.AssertionError
               "expected response time to be <= 3000ms but got undefinedms").
Proof.
  split; [lia |].
  apply (validateResponseTime_zero_duration_throws _ 3000); reflexivity.
Defined.

(* ===================================================================== *)
(** ** Headers                                                           *)
(* ===================================================================== *)

Section Headers.

Context {World : Type}.
Variable Date_now : World → Z.
Variable transport : HttpClient.Request → World → result value * World.

(** Each verb hands [request_of] to the transport. *)
Lemma call_timed m this endpoint data headers w :
  HttpClient.call Date_now transport m this endpoint data headers w
  = HttpClient.timed Date_now transport this
      (HttpClient.request_of m this endpoint data headers) w.
Proof. by destruct m. Qed.

(** A verb leaves the world as the transport left it, having been handed
    the request. *)
Lemma timed_world this req w :
  (HttpClient.timed Date_now transport this req w).2 = (transport req w).2.
Proof.
  unfold HttpClient.timed.
  destruct (transport req w) as [settled w']. simpl.
  by destruct (settled ≫= _).
Qed.

Lemma call_world m this endpoint data headers w :
  (HttpClient.call Date_now transport m this endpoint data headers w).2
  = (transport (HttpClient.request_of m this endpoint data headers) w).2.
Proof. rewrite call_timed. apply timed_world. Qed.

End Headers.

(** Over the wire, a verb hands the transport one request: [request_of]. *)
Lemma call_handed serve m this endpoint data headers wire :
  handed (HttpClient.call wire_now (noting serve) m this endpoint data
            headers wire).2
  = (handed wire ++ [HttpClient.request_of m this endpoint data headers])%list.
Proof. by rewrite call_world. Qed.

Lemma lookup_spread (a b : gmap string value) (k : string) :
  spread a b !! k = match b !! k with Some v => Some v | None => a !! k end.
Proof.
  unfold spread. rewrite lookup_union. destruct (b !! k), (a !! k); done.
Qed.

(** Header settings that do not name a key leave it as it is. *)
Lemma after_settings_lookup this hs k :
  Forall (λ h : gmap string value, h !! k = None) hs →
  HttpClient.defaultHeaders (after_settings this hs) !! k
  = HttpClient.defaultHeaders this !! k.
Proof.
  unfold after_settings. revert this.
  induction hs as [|h hs IH]; intros this Hhs; simpl; [done |].
  apply Forall_cons in Hhs as [Hh Hhs].
  rewrite IH by done. simpl. rewrite lookup_spread. by rewrite Hh.
Qed.

(** C5.  A verb called with the overrides [O] hands the transport one
    request -- whatever the transport, the world after the call is the
    one the transport leaves when handed that request, and a transport
    that notes what it is handed has noted just that request -- and the
    headers of that request are the union of the defaults [D] and [O],
    with the value of [O] on every key that both have.  Merging
    [{A: '1'}] with [{A: '2', B: '3'}] gives [{A: '2', B: '3'}]. *)
Theorem header_merge_right_biased
    {World : Type} (Date_now : World → Z)
    (transport : HttpClient.Request → World → result value * World)
    (m : HttpClient.method) (this : HttpClient.t) (endpoint : value)
    (data : option value) (O : gmap string value) (w : World) :
  let D := HttpClient.defaultHeaders this in
  let req := HttpClient.request_of m this endpoint data (Some O) in
  let sent := HttpClient.req_headers req in
  (HttpClient.call Date_now transport m this endpoint data (Some O) w).2
    = (transport req w).2
  ∧ (∀ serve wire,
       handed (HttpClient.call wire_now (noting serve) m this endpoint data
                 (Some O) wire).2
       = (handed wire ++ [req])%list)
  ∧ (∀ k, sent !! k = match O !! k with Some v => Some v | None => D !! k end)
  ∧ dom sent = dom D ∪ dom O
  ∧ spread {[ "A" := VStr "1" ]} {[ "A" := VStr "2"; "B" := VStr "3" ]}
    = {[ "A" := VStr "2"; "B" := VStr "3" ]}.
Proof.
  simpl. split; [apply call_world |]. split; [| split; [| split]].
  - intros serve wire. apply call_handed.
  - intros k. apply lookup_spread.
  - unfold spread. rewrite dom_union_L. apply (comm_L (∪)).
  - reflexivity.
Qed.

(** C9 as stated fails: after [setAuthToken('abc')], and with the
    defaults unchanged since, a request whose own headers name
    [Authorization] is sent with that header, not with [Bearer abc]. *)
Lemma authorization_override_is_sent_instead :
  let this' := HttpClient.setAuthToken Samples.client (VStr "abc") in
  let override : gmap string value :=
    {[ "Authorization" := VStr "Basic dXNlcjpwYXNz" ]} in
  HttpClient.defaultHeaders this' !! "Authorization"
    = Some (VStr "Bearer abc")
  ∧ (∃ req,
       handed (HttpClient.get wire_now (noting Samples.serving) this'
                 (VStr "/users") (Some override) (1000, [])).2 = [req]
       ∧ HttpClient.req_headers req !! "Authorization"
         = Some (VStr "Basic dXNlcjpwYXNz"))
  ∧ ¬ (∀ (this : HttpClient.t) (t : string) headers serve wire req,
         handed (HttpClient.get wire_now (noting serve)
                   (HttpClient.setAuthToken this (VStr t))
                   (VStr "/users") headers wire).2
         = (handed wire ++ [req])%list →
         HttpClient.req_headers req !! "Authorization"
         = Some (VStr ("Bearer " ++ t))).
Proof.
  split; [reflexivity |]. split.
  - eexists. split; reflexivity.
  - intros Hall.
    specialize (Hall Samples.client "abc"
                  (Some {[ "Authorization" := VStr "Basic dXNlcjpwYXNz" ]})
                  Samples.serving (1000, []) _ eq_refl).
    discriminate Hall.
Qed.

(** C9, amended.  After [setAuthToken(t)] the defaults map
    [Authorization] to [Bearer t] and every other key to what it was
    mapped to before; the rest of the instance is as before.  Until the
    header is set again -- so after any header settings [hs] that do not
    name [Authorization] -- every request hands the transport one
    request, which carries [Authorization: Bearer t] when the headers of
    that call do not name [Authorization], and the value those headers
    give it when they do. *)
Theorem setAuthToken_sets_bearer
    {World : Type} (Date_now : World → Z)
    (transport : HttpClient.Request → World → result value * World)
    (this : HttpClient.t) (t : string) :
  let this' := HttpClient.setAuthToken this (VStr t) in
  let bearer := VStr ("Bearer " ++ t) in
  HttpClient.defaultHeaders this' !! "Authorization" = Some bearer
  ∧ (∀ k, k ≠ "Authorization" →
          HttpClient.defaultHeaders this' !! k
          = HttpClient.defaultHeaders this !! k)
  ∧ HttpClient.baseUrl this' = HttpClient.baseUrl this
  ∧ HttpClient.timeout this' = HttpClient.timeout this
  ∧ (∀ hs m endpoint data headers,
       Forall (λ h : gmap string value, h !! "Authorization" = None) hs →
       let later := after_settings this' hs in
       let req := HttpClient.request_of m later endpoint data headers in
       HttpClient.defaultHeaders later !! "Authorization" = Some bearer
       ∧ (∀ w,
            (HttpClient.call Date_now transport m later endpoint data
               headers w).2 = (transport req w).2)
       ∧ (∀ serve wire,
            handed (HttpClient.call wire_now (noting serve) m later endpoint
                      data headers wire).2
            = (handed wire ++ [req])%list)
       ∧ HttpClient.req_headers req !! "Authorization"
         = Some (default bearer (default ∅ headers !! "Authorization"))).
Proof.
  simpl.
  assert (Hbearer :
            HttpClient.defaultHeaders (HttpClient.setAuthToken this (VStr t))
              !! "Authorization" = Some (VStr ("Bearer " ++ t))).
  { simpl. rewrite lookup_spread. by rewrite lookup_singleton_eq. }
  split; [exact Hbearer |]. split; [| split; [done | split; [done |]]].
  - intros k Hk. rewrite lookup_spread. by rewrite lookup_singleton_ne.
  - intros hs m endpoint data headers Hhs.
    pose proof (after_settings_lookup
                  (HttpClient.setAuthToken this (VStr t)) hs _ Hhs) as Hlater.
    rewrite Hbearer in Hlater.
    split; [exact Hlater |]. split; [| split].
    + intros w. apply call_world.
    + intros serve wire. apply call_handed.
    + simpl. rewrite lookup_spread, Hlater.
      by destruct (default ∅ headers !! "Authorization").
Qed.

(* ===================================================================== *)
(** ** The two wrappers                                                  *)
(* ===================================================================== *)

(** The page object validates as the resource client does and then checks
    the response time against the default bound. *)
Lemma BasePageObject_validateSuccessResponse_unfold response expectedStatus :
  BasePageObject.validateSuccessResponse response expectedStatus
  = (body ← BaseApiClient.validateSuccessResponse response expectedStatus;
     responseValidations.validateResponseTime response None ;;
     Return body).
Proof. by destruct expectedStatus. Qed.

(** C6 as stated fails: a response that took five seconds is accepted by
    the resource client and refused by the page object. *)
Lemma wrappers_disagree_on_slow_response :
  BaseApiClient.validateSuccessResponse Samples.slow_response None
    = Return (VArr [] ∅)
  ∧ BasePageObject.validateSuccessResponse Samples.slow_response None
    = Throw (Chai.AssertionError
               "expected response time to be <= 3000ms but got 5000ms")
  ∧ ¬ (∀ response expectedStatus,
         BaseApiClient.validateSuccessResponse response expectedStatus
         = BasePageObject.validateSuccessResponse response expectedStatus).
Proof.
  split; [reflexivity | split; [reflexivity |]].
  intros Heq. specialize (Heq Samples.slow_response None). discriminate Heq.
Qed.

(** C6, amended.  [BasePageObject.validateSuccessResponse] accepts a
    response exactly when [BaseApiClient.validateSuccessResponse] accepts
    it and its response time passes the check against the default bound
    of 3000 ms; it then returns the same body. *)
Theorem page_object_refines_api_client
    (response : value) (expectedStatus : option Z) (body : value) :
  BasePageObject.validateSuccessResponse response expectedStatus = Return body
  ↔ BaseApiClient.validateSuccessResponse response expectedStatus = Return body
    ∧ responseValidations.validateResponseTime response None = Return ().
Proof.
  rewrite BasePageObject_validateSuccessResponse_unfold.
  destruct (BaseApiClient.validateSuccessResponse response expectedStatus)
    as [b|e]; simpl.
  - destruct (responseValidations.validateResponseTime response None)
      as [[]|e]; simpl; split; try done; intros [??]; congruence.
  - split; [done | by intros [??]].
Qed.

(* ===================================================================== *)
(** ** Failures of the client                                            *)
(* ===================================================================== *)

Section ClientFailures.

Context {World : Type}.
Variable Date_now : World → Z.
Variable transport : HttpClient.Request → World → result value * World.

Abbreviation handleError := (HttpClient.handleError Date_now).
Abbreviation addTimingInfo := (HttpClient.addTimingInfo Date_now).
Abbreviation timed := (HttpClient.timed Date_now transport).
Abbreviation call := (HttpClient.call Date_now transport).

(** [handleError] never returns. *)
Lemma handleError_throws this error startTime w :
  ∃ e, handleError this error startTime w = Throw e.
Proof.
  unfold HttpClient.handleError.
  destruct (get_prop error "response") as [r|e]; simpl; [| eauto].
  destruct (truthy r).
  - destruct (addTimingInfo r startTime w); simpl; eauto.
  - destruct (get_prop error "timeout") as [t|e]; simpl; [| eauto].
    destruct (truthy t); [eauto |].
    destruct (get_prop error "message"); simpl; eauto.
Qed.

Lemma handleError_with_response this error startTime w props :
  get_prop error "response" = Return (VObj props) →
  handleError this error startTime w
  = Throw (seen_through error "response"
             (VObj (<["duration" := VNum (Date_now w - startTime)]> props))).
Proof. intros H. unfold HttpClient.handleError. by rewrite H. Qed.

Lemma handleError_timeout this error startTime w r t :
  get_prop error "response" = Return r → truthy r = false →
  get_prop error "timeout" = Return t → truthy t = true →
  handleError this error startTime w
  = Throw (new_Error ("Request timeout after "
                      ++ pretty (HttpClient.timeout this) ++ "ms")).
Proof.
  intros Hr Hfalsy Ht Htruthy. unfold HttpClient.handleError.
  rewrite Hr. simpl. rewrite Hfalsy, Ht. simpl. by rewrite Htruthy.
Qed.

Lemma handleError_network this error startTime w r t msg :
  get_prop error "response" = Return r → truthy r = false →
  get_prop error "timeout" = Return t → truthy t = false →
  get_prop error "message" = Return msg →
  handleError this error startTime w
  = Throw (new_Error ("Network error: " ++ to_string msg)).
Proof.
  intros Hr Hfalsy Ht Hfalsy' Hmsg. unfold HttpClient.handleError.
  rewrite Hr. simpl. rewrite Hfalsy, Ht. simpl. rewrite Hfalsy', Hmsg.
  done.
Qed.

(** What a verb does once the transport has rejected the request. *)
Lemma timed_rejected this req w error w' :
  transport req w = (Throw error, w') →
  timed this req w
  = (handleError this error (Date_now w) w' ;; Return VUndefined, w').
Proof. intros H. unfold HttpClient.timed. by rewrite H. Qed.

(** What a verb does once the transport has resolved the request. *)
Lemma timed_resolved this req w response w' :
  transport req w = (Return response, w') →
  timed this req w
  = (match addTimingInfo response (Date_now w) w' with
     | Return timedResponse => Return timedResponse
     | Throw error =>
         handleError this error (Date_now w) w' ;; Return VUndefined
     end, w').
Proof.
  intros H. unfold HttpClient.timed. rewrite H. simpl.
  by destruct (addTimingInfo response (Date_now w) w').
Qed.

(** A verb returns only what the transport resolved with, timed. *)
Lemma timed_Return_inv this req w x w1 :
  timed this req w = (Return x, w1) →
  ∃ response,
    transport req w = (Return response, w1)
    ∧ set_prop response "duration"
        (VNum (Date_now w1 - Date_now w)) = Return x.
Proof.
  destruct (transport req w) as [[response|error] w'] eqn:Ht.
  - rewrite (timed_resolved _ _ _ _ _ Ht).
    unfold HttpClient.addTimingInfo.
    destruct (set_prop response "duration" _) as [r|e] eqn:Hset.
    + intros [= <- <-]. eauto.
    + destruct (handleError_throws this e (Date_now w) w') as [e' ->].
      done.
  - rewrite (timed_rejected _ _ _ _ _ Ht).
    destruct (handleError_throws this error (Date_now w) w') as [e' ->].
    done.
Qed.

End ClientFailures.

(** C1.  When the transport rejects the request of a verb with [error]:
    if [error] carries a response object, the verb throws [error] itself,
    whose response now shows the elapsed time as [duration]; otherwise, if
    [error] reports a timeout, the verb throws a new timeout error, which
    carries no response; otherwise it throws a new network error, which
    carries no response.  In every case the verb throws. *)
Theorem verb_failure_is_classified_and_raised
    {World : Type} (Date_now : World → Z)
    (transport : HttpClient.Request → World → result value * World)
    (m : HttpClient.method) (this : HttpClient.t) (endpoint : value)
    (data : option value) (headers : option (gmap string value))
    (w w' : World) (error : value) :
  transport (HttpClient.request_of m this endpoint data headers) w
    = (Throw error, w') →
  let raised :=
    HttpClient.call Date_now transport m this endpoint data headers w in
  (∀ props,
     get_prop error "response" = Return (VObj props) →
     let response' :=
       VObj (<["duration" := VNum (Date_now w' - Date_now w)]> props) in
     raised = (Throw (seen_through error "response" response'), w')
     ∧ get_prop (seen_through error "response" response') "response"
       = Return response'
     ∧ get_prop response' "duration"
       = Return (VNum (Date_now w' - Date_now w)))
  ∧ (∀ r t,
       get_prop error "response" = Return r → truthy r = false →
       get_prop error "timeout" = Return t → truthy t = true →
       let timeoutError :=
         new_Error ("Request timeout after "
                    ++ pretty (HttpClient.timeout this) ++ "ms") in
       raised = (Throw timeoutError, w')
       ∧ get_prop timeoutError "response" = Return VUndefined)
  ∧ (∀ r t msg,
       get_prop error "response" = Return r → truthy r = false →
       get_prop error "timeout" = Return t → truthy t = false →
       get_prop error "message" = Return msg →
       let networkError :=
         new_Error ("Network error: " ++ to_string msg) in
       raised = (Throw networkError, w')
       ∧ get_prop networkError "response" = Return VUndefined)
  ∧ (∃ e, raised = (Throw e, w')).
Proof.
  intros Hrejected raised. subst raised.
  rewrite call_timed, (timed_rejected _ _ _ _ _ _ _ Hrejected).
  split; [| split; [| split]].
  - intros props Hresponse response'. split; [| split].
    + by rewrite (handleError_with_response _ _ _ _ _ _ Hresponse).
    + by apply (get_response_seen_through _ (VObj props)).
    + simpl. by rewrite lookup_insert_eq.
  - intros r t Hr Hfalsy Ht Htruthy timeoutError. split; [| done].
    by rewrite (handleError_timeout _ _ _ _ _ _ _ Hr Hfalsy Ht Htruthy).
  - intros r t msg Hr Hfalsy Ht Hfalsy' Hmsg networkError. split; [| done].
    by rewrite (handleError_network _ _ _ _ _ _ _ _ Hr Hfalsy Ht Hfalsy' Hmsg).
  - destruct (handleError_throws Date_now this error (Date_now w) w')
      as [e ->].
    by exists e.
Qed.

Lemma verb_failure_is_classified_and_raised_witness :
  HttpClient.get id (Samples.rejecting Samples.not_found_error)
    Samples.client (VStr "/users/9999") None 1000
  = (Throw (VErr ErrorC "Not Found"
              {[ "status" := VNum 404;
                 "response" :=
                   VObj (<["duration" := VNum 120]>
                           Samples.not_found_response) ]}),
     1120)
  ∧ HttpClient.get id (Samples.rejecting Samples.timeout_error)
      Samples.client (VStr "/users") None 1000
    = (Throw (new_Error "Request timeout after 10000ms"), 1120)
  ∧ HttpClient.get id (Samples.rejecting Samples.refused_error)
      Samples.client (VStr "/users") None 1000
    = (Throw (new_Error
                "Network error: connect ECONNREFUSED 127.0.0.1:80"),
       1120).
Proof.
  split; [| split].
  - apply (proj1 (verb_failure_is_classified_and_raised
                    id (Samples.rejecting Samples.not_found_error)
                    HttpClient.GET Samples.client (VStr "/users/9999")
                    None None 1000 1120 Samples.not_found_error eq_refl)
             Samples.not_found_response eq_refl).
  - apply (proj1 (proj2 (verb_failure_is_classified_and_raised
                    id (Samples.rejecting Samples.timeout_error)
                    HttpClient.GET Samples.client (VStr "/users")
                    None None 1000 1120 Samples.timeout_error eq_refl))
             VUndefined (VNum 10000) eq_refl eq_refl eq_refl eq_refl).
  - apply (proj1 (proj2 (proj2 (verb_failure_is_classified_and_raised
                    id (Samples.rejecting Samples.refused_error)
                    HttpClient.GET Samples.client (VStr "/users")
                    None None 1000 1120 Samples.refused_error eq_refl)))
             VUndefined VUndefined
             (VStr "connect ECONNREFUSED 127.0.0.1:80")
             eq_refl eq_refl eq_refl eq_refl eq_refl).
Defined.

(* ===================================================================== *)
(** ** Timing                                                            *)
(* ===================================================================== *)

Lemma get_prop_Throw_inv v k e :
  get_prop v k = Throw e → ∃ msg, e = new_TypeError msg.
Proof.
  destruct v; simpl; intros H; repeat case_match; try discriminate H;
    injection H as <-; eauto.
Qed.

Lemma set_prop_Throw_inv v k x e :
  set_prop v k x = Throw e → ∃ msg, e = new_TypeError msg.
Proof.
  destruct v; simpl; intros H; try discriminate H; injection H as <-; eauto.
Qed.

(** An error object fresh from its constructor is of neither kind. *)
Lemma fresh_error_of_no_kind k cls msg : ¬ of_kind k (VErr cls msg ∅).
Proof.
  intros (response & Hresponse & s & Hs & _).
  simpl in Hresponse. rewrite lookup_empty in Hresponse. simpl in Hresponse.
  injection Hresponse as <-. discriminate Hs.
Qed.

Section Timing.

Context {World : Type}.
Variable Date_now : World → Z.
Variable transport : HttpClient.Request → World → result value * World.

(** Whatever [handleError] throws is either the error it was given,
    with the timed response seen through it, or an error object fresh
    from its constructor. *)
Lemma handleError_Throw_inv this error startTime w e :
  HttpClient.handleError Date_now this error startTime w = Throw e →
  (∃ r r',
     get_prop error "response" = Return r ∧ truthy r = true
     ∧ set_prop r "duration" (VNum (Date_now w - startTime)) = Return r'
     ∧ e = seen_through error "response" r')
  ∨ (∃ cls msg, e = VErr cls msg ∅).
Proof.
  unfold HttpClient.handleError, HttpClient.addTimingInfo.
  destruct (get_prop error "response") as [r|e0] eqn:Hr; simpl.
  - destruct (truthy r) eqn:Htruthy.
    + destruct (set_prop r "duration" _) as [r'|e0] eqn:Hset; simpl;
        intros [= <-].
      * left. by exists r, r'.
      * right. apply set_prop_Throw_inv in Hset as [msg ->]. by eexists _, _.
    + destruct (get_prop error "timeout") as [t|e0] eqn:Ht; simpl.
      * destruct (truthy t); [intros [= <-]; right; by eexists _, _ |].
        destruct (get_prop error "message") as [msg|e0] eqn:Hmsg; simpl;
          intros [= <-]; right; [by eexists _, _ |].
        apply get_prop_Throw_inv in Hmsg as [msg ->]. by eexists _, _.
      * intros [= <-]. right.
        apply get_prop_Throw_inv in Ht as [msg ->]. by eexists _, _.
  - intros [= <-]. right.
    apply get_prop_Throw_inv in Hr as [msg ->]. by eexists _, _.
Qed.

End Timing.

(** C4 as stated fails: the duration is the difference of two readings
    of the clock, and where the clock is set back while the request is
    under way it is negative -- on the response that is returned and on
    the response that a client error carries. *)
Lemma clock_set_back_gives_negative_duration :
  (∃ response,
     (HttpClient.get id Samples.set_back Samples.client (VStr "/users")
        None 1000).1 = Return response
     ∧ get_prop response "duration" = Return (VNum (-5)))
  ∧ (∃ e response,
       (HttpClient.get id (Samples.set_back_rejecting Samples.not_found_error)
          Samples.client (VStr "/users/9999") None 1000).1 = Throw e
       ∧ of_kind client_error e
       ∧ get_prop e "response" = Return response
       ∧ get_prop response "duration" = Return (VNum (-5)))
  ∧ ¬ (∀ (Date_now : Z → Z)
         (transport : HttpClient.Request → Z → result value * Z)
         this endpoint headers w response,
         (HttpClient.get Date_now transport this endpoint headers w).1
         = Return response →
         ∃ d, get_prop response "duration" = Return (VNum d) ∧ 0 ≤ d).
Proof.
  split; [| split].
  - eexists. split; reflexivity.
  - eexists _, _. split; [reflexivity |]. split; [| split; reflexivity].
    eexists. split; [reflexivity |]. exists 404.
    split; [reflexivity | simpl; lia].
  - intros Hall.
    destruct (Hall id Samples.set_back Samples.client (VStr "/users") None
                1000 _ eq_refl) as (d & Hd & Hnonneg).
    change (Return (VNum (-5)) = Return (VNum d)) in Hd.
    injection Hd as <-. lia.
Qed.

(** C4, amended.  The duration a verb attaches is the reading of the
    clock when the request has settled less the reading when it was
    dispatched; it is not negative exactly when the clock has not been
    set back in between.  Every response a verb returns carries this
    duration, and a response object that the transport resolves with is
    returned with it.  Every error of kind client-error or server-error
    that a verb throws carries the response the transport reported
    (whose status is in the range of that kind) with this duration
    attached to it, and a rejection that carries a response object with
    a status in the range of a kind is thrown as an error of that
    kind. *)
Theorem duration_attached_is_clock_difference
    {World : Type} (Date_now : World → Z)
    (transport : HttpClient.Request → World → result value * World)
    (m : HttpClient.method) (this : HttpClient.t) (endpoint : value)
    (data : option value) (headers : option (gmap string value))
    (w : World) :
  let settled :=
    transport (HttpClient.request_of m this endpoint data headers) w in
  let result :=
    HttpClient.call Date_now transport m this endpoint data headers w in
  let d := Date_now settled.2 - Date_now w in
  (0 ≤ d ↔ Date_now w ≤ Date_now settled.2)
  ∧ (∀ response, result.1 = Return response →
       get_prop response "duration" = Return (VNum d))
  ∧ (∀ props, settled.1 = Return (VObj props) →
       result.1 = Return (VObj (<["duration" := VNum d]> props)))
  ∧ (∀ e k, result.1 = Throw e → of_kind k e →
       ∃ error original response',
         settled.1 = Throw error
         ∧ get_prop error "response" = Return original
         ∧ status_in k original
         ∧ set_prop original "duration" (VNum d) = Return response'
         ∧ get_prop e "response" = Return response'
         ∧ get_prop response' "duration" = Return (VNum d))
  ∧ (∀ error props k,
       settled.1 = Throw error →
       get_prop error "response" = Return (VObj props) →
       status_in k (VObj props) →
       ∃ e, result.1 = Throw e
            ∧ of_kind k e
            ∧ get_prop e "response"
              = Return (VObj (<["duration" := VNum d]> props))).
Proof.
  intros settled result d. subst settled result d.
  rewrite call_timed.
  set (req := HttpClient.request_of m this endpoint data headers) in *.
  split; [lia |]. split; [| split; [| split]].
  - intros response Hreturn.
    destruct (HttpClient.timed Date_now transport this req w)
      as [r w1] eqn:Htimed.
    simpl in Hreturn. subst r.
    apply timed_Return_inv in Htimed as (r0 & Htransport & Hset).
    rewrite Htransport. simpl.
    by apply (get_prop_set_duration r0).
  - intros props Hresolved.
    destruct (transport req w) as [settled w'] eqn:Htransport.
    simpl in Hresolved. subst settled.
    by rewrite (timed_resolved _ _ _ _ _ _ _ Htransport).
  - intros e k Hthrow Hkind.
    destruct (transport req w) as [[r0|error] w'] eqn:Htransport.
    + rewrite (timed_resolved _ _ _ _ _ _ _ Htransport) in Hthrow.
      simpl in Hthrow. unfold HttpClient.addTimingInfo in Hthrow.
      destruct (set_prop r0 "duration" _) as [r|e0] eqn:Hset; [done |].
      apply set_prop_Throw_inv in Hset as [msg ->].
      simpl in Hthrow. injection Hthrow as <-.
      by apply fresh_error_of_no_kind in Hkind.
    + rewrite (timed_rejected _ _ _ _ _ _ _ Htransport) in Hthrow.
      simpl in Hthrow.
      destruct (HttpClient.handleError Date_now this error (Date_now w) w')
        as [[]|e'] eqn:Hhandle; simpl in Hthrow; [done |].
      injection Hthrow as ->.
      apply handleError_Throw_inv in Hhandle
        as [(r & r' & Hr & Htruthy & Hset & ->) | (cls & msg & ->)];
        [| by apply fresh_error_of_no_kind in Hkind].
      pose proof (get_response_seen_through _ _ r' Hr Htruthy) as Hseen.
      destruct Hkind as (response & Hresponse & s & Hs & Hrange).
      rewrite Hseen in Hresponse. injection Hresponse as <-.
      exists error, r, r'. simpl.
      repeat split; try done.
      * exists s. split; [| done].
        by rewrite <- (get_prop_set_other _ _ _ _ "status" Hset).
      * by apply (get_prop_set_duration r).
  - intros error props k Hrejected Hresponse (s & Hs & Hrange).
    destruct (transport req w) as [settled w'] eqn:Htransport.
    simpl in Hrejected. subst settled.
    rewrite (timed_rejected _ _ _ _ _ _ _ Htransport).
    rewrite (handleError_with_response _ _ _ _ _ _ Hresponse). simpl.
    pose proof (get_response_seen_through error (VObj props)
                  (VObj (<["duration" := VNum (Date_now w' - Date_now w)]>
                           props)) Hresponse eq_refl) as Hseen.
    eexists. split; [reflexivity |]. split; [| exact Hseen].
    eexists. split; [exact Hseen |]. exists s. split; [| done].
    simpl in Hs |- *. by rewrite lookup_insert_ne.
Qed.

(* ===================================================================== *)
(** ** A missing endpoint                                                *)
(* ===================================================================== *)

(** C7 as stated fails: [get] without an endpoint does not throw; it
    requests the base URL followed by the text [undefined] and returns
    the timed response. *)
Lemma get_without_endpoint_is_dispatched :
  HttpClient.get Samples.logged_now Samples.answering Samples.client
    VUndefined None (0, [])
  = (Return (VObj {[ "status" := VNum 200;
                     "body" := VArr [] ∅;
                     "headers" := Samples.json_headers;
                     "duration" := VNum 15 ]}),
     (15, ["https://jsonplaceholder.typicode.comundefined"])).
Proof. vm_compute. reflexivity. Qed.

(** C7, amended.  A verb called without an endpoint does not throw on
    that account: it builds the URL from the base URL and the text
    [undefined], hands the request to the transport exactly as a call with
    the endpoint ['undefined'] does, and returns the timed response
    whenever the transport resolves with a response object. *)
Theorem missing_endpoint_requests_undefined
    {World : Type} (Date_now : World → Z)
    (transport : HttpClient.Request → World → result value * World)
    (m : HttpClient.method) (this : HttpClient.t)
    (data : option value) (headers : option (gmap string value))
    (w : World) :
  let req := HttpClient.request_of m this VUndefined data headers in
  HttpClient.req_url req = HttpClient.baseUrl this ++ "undefined"
  ∧ HttpClient.call Date_now transport m this VUndefined data headers w
    = HttpClient.timed Date_now transport this req w
  ∧ HttpClient.call Date_now transport m this VUndefined data headers w
    = HttpClient.call Date_now transport m this (VStr "undefined")
        data headers w
  ∧ (∀ props w',
       transport req w = (Return (VObj props), w') →
       HttpClient.call Date_now transport m this VUndefined data headers w
       = (Return (VObj (<["duration" := VNum (Date_now w' - Date_now w)]>
                          props)), w')).
Proof.
  intros req. subst req. split; [done |]. split; [apply call_timed |].
  split; [by destruct m |].
  intros props w' Htransport.
  by rewrite call_timed, (timed_resolved _ _ _ _ _ _ _ Htransport).
Qed.

(* ===================================================================== *)
(** ** expectClientError                                                 *)
(* ===================================================================== *)

Lemma either_prop_Return obj p q x :
  get_prop obj p = Return x → truthy x = true →
  Chai.either_prop obj p q = Return x.
Proof. intros Hx Htruthy. unfold Chai.either_prop. by rewrite Hx; simpl; rewrite Htruthy. Qed.

Lemma either_prop_passes obj p q :
  match obj with VUndefined | VNull => False | _ => True end →
  ∃ x, Chai.either_prop obj p q = Return x.
Proof.
  intros Hobj. unfold Chai.either_prop.
  destruct (get_prop_defined obj p Hobj) as [x ->]. simpl.
  destruct (truthy x); [eauto | by apply get_prop_defined].
Qed.


Lemma strict_eq_num_true v n : strict_eq_num v n = true → v = VNum n.
Proof.
  destruct v; simpl; try done. intros H%Z.eqb_eq. by subst.
Qed.






(* ===================================================================== *)
(** ** retry                                                             *)
(* ===================================================================== *)

Section RetryRuns.

Context {World : Type}.
Variable sleep : Z → World → World.
Variable fn : World → result value * World.
Variable delay : Z.

Variable maxRetries : Z.

Abbreviation retry_from := (retry_from sleep fn maxRetries delay).
Abbreviation world_from := (world_from sleep fn delay).
Abbreviation backoff_from := (backoff_from delay).

(** The loop, one round unfolded. *)
Lemma retry_from_eq i w :
  retry_from i w
  = if i <=? maxRetries then
      match fn w with
      | (Return v, w') => mkRun (Return v) w' [Invoked]
      | (Throw error, w') =>
          if i =? maxRetries then mkRun (Throw error) w' [Invoked]
          else
            let ms := delay * 2 ^ i in
            let rest := retry_from (i + 1) (sleep ms w') in
            mkRun (outcome rest) (world rest)
                  (Invoked :: Slept ms :: trace rest)
      end
    else mkRun (Return VUndefined) w [].
Proof.
  rewrite retry_from_equation_1.
  destruct (inspect (i <=? maxRetries)) as [[] Hle].
  - match goal with
    | |- _ = if _ then ?X else _ => transitivity X; [| by rewrite Hle]
    end.
    simp retry_from.
    destruct (fn w) as [[v|error] w']; simp retry_from; done.
  - match goal with
    | |- _ = if _ then _ else ?Y => transitivity Y; [| by rewrite Hle]
    end.
    by simp retry_from.
Qed.

(** [n] failing calls, none of them the last one allowed. *)
Lemma retry_from_failures n : ∀ i w,
  i + Z.of_nat n ≤ maxRetries →
  (∀ j, (j < n)%nat → ∃ e, (fn (world_from i j w)).1 = Throw e) →
  let rest := retry_from (i + Z.of_nat n) (world_from i n w) in
  retry_from i w
  = mkRun (outcome rest) (world rest) (backoff_from i n ++ trace rest)%list.
Proof.
  induction n as [|n IH]; intros i w Hbound Hfail; simpl.
  - rewrite Z.add_0_r. by destruct (retry_from i w).
  - destruct (Hfail 0%nat ltac:(lia)) as [e He]. simpl in He.
    rewrite (retry_from_eq i w).
    rewrite (proj2 (Z.leb_le i maxRetries)) by lia.
    destruct (fn w) as [[v|e'] w1] eqn:Hfn; simpl in He; [done |].
    rewrite (proj2 (Z.eqb_neq i maxRetries)) by lia. simpl.
    rewrite (IH (i + 1) (sleep (delay * 2 ^ i) w1)); [| lia |].
    + simpl. by replace (i + 1 + Z.of_nat n) with (i + Z.of_nat (S n)) by lia.
    + intros j Hj. specialize (Hfail (S j) ltac:(lia)).
      simpl in Hfail. by rewrite Hfn in Hfail.
Qed.

Lemma invocations_backoff i n t :
  invocations (backoff_from i n ++ t) = (n + invocations t)%nat.
Proof. revert i. induction n as [|n IH]; intros i; simpl; [done | by rewrite IH]. Qed.

Lemma delays_backoff i n t :
  delays (backoff_from i n ++ t)
  = (((λ j, delay * 2 ^ (i + Z.of_nat j)) <$> seq 0 n) ++ delays t)%list.
Proof.
  revert i. induction n as [|n IH]; intros i; simpl; [done |].
  rewrite IH, Z.add_0_r. f_equal. f_equal.
  rewrite <- fmap_S_seq, <- list_fmap_compose.
  apply list_fmap_ext. intros _ j _. simpl. f_equal. f_equal. lia.
Qed.

End RetryRuns.

(** C2.  Let [K >= 0] and let the calls of [fn] be counted from zero.
    If every call up to the one with index [K] fails, [retry] calls [fn]
    exactly [K + 1] times, sleeps [delay * 2^i] after the failed call
    with index [i] for each [i < K], and throws the error of the last
    call as it is.  If the calls with index below [N] fail and the one
    with index [N <= K] succeeds, [retry] returns the value of that call,
    having called [fn] exactly [N + 1] times and slept [delay],
    [delay * 2], [delay * 4], ... between the failed calls. *)
Theorem retry_exponential_backoff
    {World : Type} (sleep : Z → World → World)
    (fn : World → result value * World) (K delay : Z) (w : World) :
  0 ≤ K →
  let r := retry sleep fn (Some K) (Some delay) w in
  ((∀ j, (j ≤ Z.to_nat K)%nat → ∃ e, attempt sleep fn delay j w = Throw e) →
     outcome r = attempt sleep fn delay (Z.to_nat K) w
     ∧ invocations (trace r) = S (Z.to_nat K)
     ∧ delays (trace r)
       = (λ i, delay * 2 ^ Z.of_nat i) <$> seq 0 (Z.to_nat K)
     ∧ trace r = (backoff_from delay 0 (Z.to_nat K) ++ [Invoked])%list)
  ∧ (∀ N v,
       (N ≤ Z.to_nat K)%nat →
       (∀ j, (j < N)%nat → ∃ e, attempt sleep fn delay j w = Throw e) →
       attempt sleep fn delay N w = Return v →
       outcome r = Return v
       ∧ invocations (trace r) = S N
       ∧ delays (trace r) = (λ i, delay * 2 ^ Z.of_nat i) <$> seq 0 N
       ∧ trace r = (backoff_from delay 0 N ++ [Invoked])%list).
Proof.
  intros HK r. subst r. unfold retry, attempt. simpl. split.
  - intros Hfail.
    rewrite (retry_from_failures sleep fn delay K (Z.to_nat K) 0 w);
      [| lia | intros j Hj; apply Hfail; lia].
    rewrite Z.add_0_l, Z2Nat.id by done.
    destruct (Hfail (Z.to_nat K) ltac:(lia)) as [e He].
    rewrite (retry_from_eq sleep fn delay K K).
    rewrite Z.leb_refl, Z.eqb_refl.
    destruct (fn (world_from sleep fn delay 0 (Z.to_nat K) w))
      as [[v|e'] w1]; simpl in *; [done |].
    rewrite invocations_backoff, delays_backoff. simpl.
    rewrite app_nil_r. repeat split. lia.
  - intros N v HN Hfail Hok.
    rewrite (retry_from_failures sleep fn delay K N 0 w); [| lia | done].
    rewrite Z.add_0_l.
    rewrite (retry_from_eq sleep fn delay K (Z.of_nat N)).
    rewrite (proj2 (Z.leb_le (Z.of_nat N) K)) by lia.
    destruct (fn (world_from sleep fn delay 0 N w))
      as [[v'|e'] w1]; simpl in *; [| done].
    injection Hok as ->.
    rewrite invocations_backoff, delays_backoff. simpl.
    rewrite app_nil_r. repeat split. lia.
Qed.

Lemma retry_exponential_backoff_witness :
  (outcome (retry Samples.no_effect Samples.hopeless (Some 2) None 0%nat)
     = Throw (new_Error "attempt 2")
   ∧ invocations (trace (retry Samples.no_effect Samples.hopeless (Some 2) None 0%nat))
     = 3%nat
   ∧ delays (trace (retry Samples.no_effect Samples.hopeless (Some 2) None 0%nat))
     = [1000; 2000]
   ∧ trace (retry Samples.no_effect Samples.hopeless (Some 2) None 0%nat)
     = [Invoked; Slept 1000; Invoked; Slept 2000; Invoked])
  ∧ (outcome (retry Samples.no_effect Samples.flaky None None 0%nat)
     = Return (VStr "done")
   ∧ invocations (trace (retry Samples.no_effect Samples.flaky None None 0%nat))
     = 3%nat
   ∧ delays (trace (retry Samples.no_effect Samples.flaky None None 0%nat))
     = [1000; 2000]
   ∧ trace (retry Samples.no_effect Samples.flaky None None 0%nat)
     = [Invoked; Slept 1000; Invoked; Slept 2000; Invoked]).
Proof.
  split.
  - apply (proj1 (retry_exponential_backoff
                    Samples.no_effect Samples.hopeless 2 1000 0%nat
                    ltac:(lia))).
    intros j _. by eexists.
  - apply (proj2 (retry_exponential_backoff
                    Samples.no_effect Samples.flaky 3 1000 0%nat
                    ltac:(lia)) 2%nat (VStr "done")).
    + simpl. lia.
    + intros [|[|j]] Hj; [by eexists | by eexists | lia].
    + reflexivity.
Defined.

(* ===================================================================== *)
(** ** The schemas, both ways                                            *)
(* ===================================================================== *)

Lemma type_number_inv x : Chai.type x = "number" → ∃ n, x = VNum n.
Proof. destruct x; simpl; intros [=]; eauto. Qed.

Lemma type_string_inv x : Chai.type x = "string" → ∃ s, x = VStr s.
Proof. destruct x; simpl; intros [=]; eauto. Qed.

Lemma type_object_inv x : Chai.type x = "object" → ∃ props, x = VObj props.
Proof. destruct x; simpl; intros [=]; eauto. Qed.

Lemma a_Return_inv v ty : Chai.a v ty = Return () → Chai.type v = ty.
Proof.
  unfold Chai.a, Chai.assert.
  destruct (String.eqb_spec (Chai.type v) ty); [done | discriminate].
Qed.

Lemma property_of_type_obj_inv props name ty :
  schemaValidations.property_of_type (VObj props) name ty = Return () →
  ∃ x, props !! name = Some x ∧ Chai.type x = ty.
Proof.
  intros H. apply bind_Return_inv in H as (x & Hproperty & Hty).
  apply property_Return_inv in Hproperty as [Hhas Hget].
  apply a_Return_inv in Hty. simpl in Hhas, Hget.
  destruct (props !! name) as [y|]; [| done].
  simpl in Hget. injection Hget as ->. eauto.
Qed.

(** One field of a schema that has been accepted. *)
Ltac schema_step H :=
  let Hfield := fresh "Hfield" in
  apply bind_Return_inv in H as ([] & Hfield & H);
  apply property_of_type_obj_inv in Hfield as (? & ? & ?).

(** X1.  The User schema validator completes exactly for the plain
    objects whose [id] is a number, whose [name], [username], [email],
    [phone] and [website] are strings and whose [address] and [company]
    are plain objects: a field of another type (a numeric id given as a
    string, an address that is [null] or an array) is refused like a
    missing one. *)
Theorem validateUserSchema_iff (u : value) :
  schemaValidations.validateUserSchema u = Return ()
  ↔ ∃ props id name username email phone website address company,
      u = VObj props
      ∧ props !! "id" = Some (VNum id)
      ∧ props !! "name" = Some (VStr name)
      ∧ props !! "username" = Some (VStr username)
      ∧ props !! "email" = Some (VStr email)
      ∧ props !! "phone" = Some (VStr phone)
      ∧ props !! "website" = Some (VStr website)
      ∧ props !! "address" = Some (VObj address)
      ∧ props !! "company" = Some (VObj company).
Proof.
  split.
  - unfold schemaValidations.validateUserSchema. intros H.
    apply bind_Return_inv in H as ([] & Hobject & H).
    apply a_Return_inv, type_object_inv in Hobject as [props ->].
    repeat schema_step H.
    apply property_of_type_obj_inv in H as (? & ? & ?).
    repeat match goal with
           | Hty : Chai.type _ = "number" |- _ =>
               apply type_number_inv in Hty as [? ->]
           | Hty : Chai.type _ = "string" |- _ =>
               apply type_string_inv in Hty as [? ->]
           | Hty : Chai.type _ = "object" |- _ =>
               apply type_object_inv in Hty as [? ->]
           end.
    by repeat eexists.
  - intros (props & id & name & username & email & phone & website
            & address & company & -> & Hid & Hname & Husername & Hemail
            & Hphone & Hwebsite & Haddress & Hcompany).
    unfold schemaValidations.validateUserSchema.
    rewrite (property_of_type_ok _ _ _ _ Hid), (property_of_type_ok _ _ _ _ Hname),
      (property_of_type_ok _ _ _ _ Husername), (property_of_type_ok _ _ _ _ Hemail),
      (property_of_type_ok _ _ _ _ Hphone), (property_of_type_ok _ _ _ _ Hwebsite),
      (property_of_type_ok _ _ _ _ Haddress), (property_of_type_ok _ _ _ _ Hcompany);
      done.
Qed.

(** X2.  The Post schema validator completes exactly for the plain
    objects whose [id] and [userId] are numbers and whose [title] and
    [body] are strings, whatever else they carry; every other value ends
    in an assertion failure. *)
Theorem validatePostSchema_iff (post : value) :
  (schemaValidations.validatePostSchema post = Return ()
   ↔ ∃ props id title body userId,
       post = VObj props
       ∧ props !! "id" = Some (VNum id)
       ∧ props !! "title" = Some (VStr title)
       ∧ props !! "body" = Some (VStr body)
       ∧ props !! "userId" = Some (VNum userId))
  ∧ passes_or_fails (schemaValidations.validatePostSchema post).
Proof.
  split; [split |].
  - unfold schemaValidations.validatePostSchema. intros H.
    apply bind_Return_inv in H as ([] & Hobject & H).
    apply a_Return_inv, type_object_inv in Hobject as [props ->].
    repeat schema_step H.
    apply property_of_type_obj_inv in H as (? & ? & ?).
    repeat match goal with
           | Hty : Chai.type _ = "number" |- _ =>
               apply type_number_inv in Hty as [? ->]
           | Hty : Chai.type _ = "string" |- _ =>
               apply type_string_inv in Hty as [? ->]
           end.
    by repeat eexists.
  - intros (props & id & title & body & userId & -> & Hid & Htitle & Hbody
            & HuserId).
    unfold schemaValidations.validatePostSchema.
    rewrite (property_of_type_ok _ _ _ _ Hid), (property_of_type_ok _ _ _ _ Htitle),
      (property_of_type_ok _ _ _ _ Hbody), (property_of_type_ok _ _ _ _ HuserId);
      done.
  - unfold schemaValidations.validatePostSchema.
    repeat (apply bind_passes_or_fails;
            [first [apply assert_passes_or_fails
                   | apply property_of_type_passes_or_fails] | intros _ _]).
    apply property_of_type_passes_or_fails.
Qed.

(** X3.  The Comment schema validator completes exactly for the plain
    objects whose [id] and [postId] are numbers and whose [name], [email]
    and [body] are strings, whatever else they carry; every other value
    ends in an assertion failure.  The text of [email] is not looked
    at. *)
Theorem validateCommentSchema_iff (comment : value) :
  (schemaValidations.validateCommentSchema comment = Return ()
   ↔ ∃ props id name email body postId,
       comment = VObj props
       ∧ props !! "id" = Some (VNum id)
       ∧ props !! "name" = Some (VStr name)
       ∧ props !! "email" = Some (VStr email)
       ∧ props !! "body" = Some (VStr body)
       ∧ props !! "postId" = Some (VNum postId))
  ∧ passes_or_fails (schemaValidations.validateCommentSchema comment).
Proof.
  split; [split |].
  - unfold schemaValidations.validateCommentSchema. intros H.
    apply bind_Return_inv in H as ([] & Hobject & H).
    apply a_Return_inv, type_object_inv in Hobject as [props ->].
    repeat schema_step H.
    apply property_of_type_obj_inv in H as (? & ? & ?).
    repeat match goal with
           | Hty : Chai.type _ = "number" |- _ =>
               apply type_number_inv in Hty as [? ->]
           | Hty : Chai.type _ = "string" |- _ =>
               apply type_string_inv in Hty as [? ->]
           end.
    by repeat eexists.
  - intros (props & id & name & email & body & postId & -> & Hid & Hname
            & Hemail & Hbody & HpostId).
    unfold schemaValidations.validateCommentSchema.
    rewrite (property_of_type_ok _ _ _ _ Hid), (property_of_type_ok _ _ _ _ Hname),
      (property_of_type_ok _ _ _ _ Hemail), (property_of_type_ok _ _ _ _ Hbody),
      (property_of_type_ok _ _ _ _ HpostId);
      done.
  - unfold schemaValidations.validateCommentSchema.
    repeat (apply bind_passes_or_fails;
            [first [apply assert_passes_or_fails
                   | apply property_of_type_passes_or_fails] | intros _ _]).
    apply property_of_type_passes_or_fails.
Qed.

(* ===================================================================== *)
(** ** Error responses                                                   *)
(* ===================================================================== *)

Lemma validateErrorResponse_Return_inv response :
  responseValidations.validateErrorResponse response = Return () →
  ∃ body text,
    get_prop response "body" = Return body
    ∧ has_property body "error" = true
    ∧ get_prop body "error" = Return (VStr text)
    ∧ text ≠ "".
Proof.
  unfold responseValidations.validateErrorResponse. intros H.
  apply bind_Return_inv in H as ([] & Hshape & H).
  apply bind_Return_inv in Hshape as (body & Hbody & Hshape).
  apply bind_Return_inv in Hshape as (error & Herror & Hstring).
  apply property_Return_inv in Herror as [Hhas Hget].
  apply a_Return_inv, type_string_inv in Hstring as [text ->].
  rewrite Hbody in H. simpl in H. rewrite Hget in H. simpl in H.
  exists body, text. repeat split; try done.
  intros ->. discriminate H.
Qed.

(** X4.  [validateErrorResponse] completes exactly when the body of the
    response has a property [error] that is a string other than the
    empty one. *)
Theorem validateErrorResponse_iff (response : value) :
  responseValidations.validateErrorResponse response = Return ()
  ↔ ∃ body text,
      get_prop response "body" = Return body
      ∧ has_property body "error" = true
      ∧ get_prop body "error" = Return (VStr text)
      ∧ text ≠ "".
Proof.
  split; [apply validateErrorResponse_Return_inv |].
  intros (body & text & Hbody & Hhas & Hget & Hne).
  unfold responseValidations.validateErrorResponse, Chai.property.
  rewrite Hbody. simpl.
  assert (Hdefined : match body with VUndefined | VNull => false | _ => true end
                     = true) by (by destruct body).
  rewrite Hdefined, Hhas. simpl. rewrite Hget. simpl.
  by destruct text.
Qed.

(** X5.  The page object hands the body of the response, not the
    response, to [validateErrorResponse], which reads [body] of what it
    is given: so [BasePageObject.validateErrorResponse] accepts a
    response only if the error text sits at [response.body.body.error],
    and it refuses, by an assertion failure, every response whose body is
    a plain object without a property [body] -- such as the body
    [{error: 'Missing password'}]. *)
Theorem page_object_validateErrorResponse_reads_nested_body
    (response : value) (expectedStatus : option Z) :
  (∀ body,
     BasePageObject.validateErrorResponse response expectedStatus
       = Return body →
     BasePageObject.validateAndGetBody response
       (Some (default 400 expectedStatus)) = Return body
     ∧ ∃ inner text,
         get_prop body "body" = Return inner
         ∧ get_prop inner "error" = Return (VStr text)
         ∧ text ≠ "")
  ∧ (∀ props,
       BasePageObject.validateAndGetBody response
         (Some (default 400 expectedStatus)) = Return (VObj props) →
       props !! "body" = None →
       BasePageObject.validateErrorResponse response expectedStatus
       = Throw (Chai.AssertionError "Target cannot be null or undefined.")).
Proof.
  unfold BasePageObject.validateErrorResponse. split.
  - intros body H.
    apply bind_Return_inv in H as (b & Hbody & H).
    apply bind_Return_inv in H as ([] & Herror & [= ->]).
    split; [done |].
    apply validateErrorResponse_Return_inv in Herror
      as (inner & text & ? & _ & ? & ?).
    by exists inner, text.
  - intros props -> Hnone. simpl.
    unfold responseValidations.validateErrorResponse. simpl.
    by rewrite Hnone.
Qed.

Lemma page_object_validateErrorResponse_reads_nested_body_witness :
  BasePageObject.validateErrorResponse MoreSamples.missing_password_response
    None
  = Throw (Chai.AssertionError "Target cannot be null or undefined.").
Proof.
  apply (proj2 (page_object_validateErrorResponse_reads_nested_body
                  MoreSamples.missing_password_response None)
           {[ "error" := VStr "Missing password" ]});
    reflexivity.
Defined.

(* ===================================================================== *)
(** ** Paginated responses                                               *)
(* ===================================================================== *)

(** X6.  For a response whose body has an array [data] and numbers
    [page], [per_page], [total] and [total_pages]:
    [validatePaginationResponse] with the options [hasNextPage] and
    [hasPreviousPage] completes exactly when [page < total_pages] if a
    next page is asked for and [page > 1] if a previous page is asked
    for; without options it completes. *)
Theorem validatePaginationResponse_iff
    (response : value) (body : gmap string value)
    (items : list value) (iprops : gmap string value)
    (page per_page total total_pages : Z) (next previous : bool) :
  get_prop response "body" = Return (VObj body) →
  body !! "data" = Some (VArr items iprops) →
  body !! "page" = Some (VNum page) →
  body !! "per_page" = Some (VNum per_page) →
  body !! "total" = Some (VNum total) →
  body !! "total_pages" = Some (VNum total_pages) →
  (responseValidations.validatePaginationResponse response
     (Some {[ "hasNextPage" := VBool next;
              "hasPreviousPage" := VBool previous ]}) = Return ()
   ↔ (next = true → page < total_pages) ∧ (previous = true → 1 < page))
  ∧ responseValidations.validatePaginationResponse response None
    = Return ().
Proof.
  intros Hbody Hdata Hpage Hper_page Htotal Htotal_pages.
  unfold responseValidations.validatePaginationResponse, Chai.property.
  rewrite !Hbody. simpl.
  rewrite Hdata, Hpage, Hper_page, Htotal, Htotal_pages. simpl.
  split; [| done].
  unfold responseValidations.option_flag.
  rewrite lookup_insert_eq, lookup_insert_ne, lookup_singleton_eq by done.
  destruct next, previous; simpl; unfold Chai.assert;
    destruct (Z.ltb_spec page total_pages), (Z.ltb_spec 1 page); simpl;
    split; try done; try lia; intros [??]; lia.
Qed.

Lemma validatePaginationResponse_iff_witness :
  responseValidations.validatePaginationResponse
    MoreSamples.last_page_response
    (Some {[ "hasNextPage" := VBool false;
             "hasPreviousPage" := VBool true ]}) = Return ()
  ∧ responseValidations.validatePaginationResponse
      MoreSamples.last_page_response
      (Some {[ "hasNextPage" := VBool true;
               "hasPreviousPage" := VBool true ]}) ≠ Return ()
  ∧ responseValidations.validatePaginationResponse
      MoreSamples.last_page_response None = Return ().
Proof.
  split; [| split].
  - apply (proj1 (validatePaginationResponse_iff
                    MoreSamples.last_page_response _ [] ∅ 2 6 12 2 false true
                    eq_refl eq_refl eq_refl eq_refl eq_refl eq_refl)).
    split; intros; [done | lia].
  - intros Haccepted.
    apply (proj1 (validatePaginationResponse_iff
                    MoreSamples.last_page_response _ [] ∅ 2 6 12 2 true true
                    eq_refl eq_refl eq_refl eq_refl eq_refl eq_refl))
      in Haccepted as [Hnext _].
    specialize (Hnext eq_refl). lia.
  - apply (proj2 (validatePaginationResponse_iff
                    MoreSamples.last_page_response _ [] ∅ 2 6 12 2 true true
                    eq_refl eq_refl eq_refl eq_refl eq_refl eq_refl)).
Defined.

(* ===================================================================== *)
(** ** The status assertions                                             *)
(* ===================================================================== *)

Lemma either_prop_status_cases obj :
  (∃ e, Chai.either_prop obj "status" "statusCode" = Throw e)
  ∨ (∃ status, Chai.either_prop obj "status" "statusCode" = Return status).
Proof.
  destruct (Chai.either_prop obj "status" "statusCode"); eauto.
Qed.

(** X7.  No object passes both [successStatus] and [clientErrorStatus].
    For an object whose [status] is a number other than zero,
    [successStatus] completes exactly for the codes from 200 to 299 and
    [clientErrorStatus] exactly for those from 400 to 499; an object
    without [status] is judged by its [statusCode]. *)
Theorem status_assertions_exclusive (obj : value) :
  ¬ (Chai.successStatus obj = Return ()
     ∧ Chai.clientErrorStatus obj = Return ())
  ∧ (∀ s, get_prop obj "status" = Return (VNum s) → s ≠ 0 →
       (Chai.successStatus obj = Return () ↔ 200 ≤ s < 300)
       ∧ (Chai.clientErrorStatus obj = Return () ↔ 400 ≤ s < 500))
  ∧ (∀ c, get_prop obj "status" = Return VUndefined →
       get_prop obj "statusCode" = Return (VNum c) →
       (Chai.successStatus obj = Return () ↔ 200 ≤ c < 300)
       ∧ (Chai.clientErrorStatus obj = Return () ↔ 400 ≤ c < 500)).
Proof.
  assert (Hnum : ∀ x,
             Chai.either_prop obj "status" "statusCode" = Return (VNum x) →
             (Chai.successStatus obj = Return () ↔ 200 ≤ x < 300)
             ∧ (Chai.clientErrorStatus obj = Return () ↔ 400 ≤ x < 500)).
  { intros x Hx. unfold Chai.successStatus, Chai.clientErrorStatus.
    rewrite Hx. simpl. unfold ge_num, lt_num, Chai.assert. simpl.
    split.
    - destruct (Z.leb_spec 200 x), (Z.ltb_spec x 300); simpl;
        split; try done; lia.
    - destruct (Z.leb_spec 400 x), (Z.ltb_spec x 500); simpl;
        split; try done; lia. }
  split; [| split].
  - intros [Hsuccess Hclient].
    unfold Chai.successStatus, Chai.clientErrorStatus in *.
    destruct (either_prop_status_cases obj) as [[e He] | [status Hstatus]].
    + rewrite He in Hsuccess. discriminate Hsuccess.
    + rewrite Hstatus in Hsuccess, Hclient. simpl in *.
      unfold ge_num, lt_num, Chai.assert in *.
      destruct (to_number status) as [x|]; simpl in *; [| done].
      destruct (Z.leb_spec 200 x), (Z.ltb_spec x 300), (Z.leb_spec 400 x),
        (Z.ltb_spec x 500); simpl in *; try done; lia.
  - intros s Hs Hnz. apply Hnum. apply either_prop_Return; [done |].
    simpl. by apply negb_true_iff, Z.eqb_neq.
  - intros c Hstatus Hcode. apply Hnum.
    unfold Chai.either_prop. by rewrite Hstatus; simpl.
Qed.

Lemma status_assertions_exclusive_witness :
  (Chai.successStatus Samples.ok_response = Return ()
   ↔ 200 ≤ 200 < 300)
  ∧ (Chai.clientErrorStatus (VObj {[ "statusCode" := VNum 404 ]}) = Return ()
     ↔ 400 ≤ 404 < 500).
Proof.
  split.
  - apply (proj1 (proj1 (proj2 (status_assertions_exclusive
                                  Samples.ok_response))
                    200 eq_refl ltac:(lia))).
  - refine (proj2 (proj2 (proj2 (status_assertions_exclusive
                                   (VObj {[ "statusCode" := VNum 404 ]})))
                     404 _ _));
      reflexivity.
Defined.

(* ===================================================================== *)
(** ** Successful responses                                              *)
(* ===================================================================== *)

Lemma has_property_defined v k :
  has_property v k = true →
  match v with VUndefined | VNull => False | _ => True end.
Proof. by destruct v. Qed.

Lemma exist_Return_iff v :
  Chai.exist v = Return ()
  ↔ match v with VUndefined | VNull => False | _ => True end.
Proof. destruct v; simpl; split; done. Qed.

Lemma property_Return_iff v name x :
  Chai.property v name = Return x
  ↔ has_property v name = true ∧ get_prop v name = Return x.
Proof.
  split; [apply property_Return_inv |].
  intros [Hhas Hget]. unfold Chai.property.
  pose proof (has_property_defined _ _ Hhas) as Hdefined.
  rewrite Hhas. by destruct v.
Qed.

Lemma validateBasicResponse_iff response :
  responseValidations.validateBasicResponse response = Return ()
  ↔ has_property response "status" = true
    ∧ has_property response "body" = true
    ∧ has_property response "headers" = true.
Proof.
  unfold responseValidations.validateBasicResponse. split.
  - intros H.
    apply bind_Return_inv in H as ([] & _ & H1).
    apply bind_Return_inv in H1 as (? & Hstatus & H2).
    apply bind_Return_inv in H2 as (? & Hbody & H3).
    apply bind_Return_inv in H3 as (? & Hheaders & _).
    apply property_Return_inv in Hstatus as [? _].
    apply property_Return_inv in Hbody as [? _].
    by apply property_Return_inv in Hheaders as [? _].
  - intros (Hstatus & Hbody & Hheaders).
    pose proof (has_property_defined _ _ Hstatus) as Hdefined.
    destruct (get_prop_defined response "status" Hdefined) as [x1 H1].
    destruct (get_prop_defined response "body" Hdefined) as [x2 H2].
    destruct (get_prop_defined response "headers" Hdefined) as [x3 H3].
    rewrite (proj2 (exist_Return_iff response) Hdefined). simpl.
    rewrite (proj2 (property_Return_iff _ _ x1) (conj Hstatus H1)). simpl.
    rewrite (proj2 (property_Return_iff _ _ x2) (conj Hbody H2)). simpl.
    by rewrite (proj2 (property_Return_iff _ _ x3) (conj Hheaders H3)).
Qed.

Lemma validateJsonContentType_iff response :
  responseValidations.validateJsonContentType response = Return ()
  ↔ ∃ headers contentType,
      get_prop response "headers" = Return headers
      ∧ has_property headers "content-type" = true
      ∧ get_prop headers "content-type" = Return contentType
      ∧ Chai.include contentType "application/json" = Return ().
Proof.
  unfold responseValidations.validateJsonContentType. split.
  - intros H.
    apply bind_Return_inv in H as (headers & Hheaders & H1).
    apply bind_Return_inv in H1 as (x & Hproperty & H2).
    apply property_Return_inv in Hproperty as [Hhas Hget].
    rewrite Hheaders in H2. simpl in H2.
    apply bind_Return_inv in H2 as (contentType & HcontentType & H3).
    by exists headers, contentType.
  - intros (headers & contentType & Hheaders & Hhas & Hget & Hinclude).
    rewrite Hheaders. simpl.
    rewrite (proj2 (property_Return_iff _ _ contentType) (conj Hhas Hget)).
    simpl. by rewrite Hget.
Qed.

Lemma include_passes_or_fails v needle :
  passes_or_fails (Chai.include v needle).
Proof.
  destruct v; simpl; try (right; eauto; fail); apply assert_passes_or_fails.
Qed.

Lemma validateBasicResponse_passes_or_fails response :
  passes_or_fails (responseValidations.validateBasicResponse response).
Proof.
  unfold responseValidations.validateBasicResponse.
  apply bind_passes_or_fails; [apply assert_passes_or_fails | intros _ _].
  repeat (apply bind_passes_or_fails;
          [apply property_passes_or_fails | intros _ _]).
  left. eauto.
Qed.

Lemma validateJsonContentType_passes_or_fails response :
  match response with VUndefined | VNull => False | _ => True end →
  passes_or_fails (responseValidations.validateJsonContentType response).
Proof.
  intros Hdefined. unfold responseValidations.validateJsonContentType.
  destruct (get_prop_defined response "headers" Hdefined) as [headers ->].
  simpl.
  apply bind_passes_or_fails; [apply property_passes_or_fails |].
  intros x [Hhas _]%property_Return_inv.
  destruct (get_prop_defined headers "content-type"
              (has_property_defined _ _ Hhas)) as [contentType ->].
  simpl. apply include_passes_or_fails.
Qed.

(** X8.  [BaseApiClient.validateSuccessResponse] returns a body exactly
    when the response has the properties [status], [body] and [headers],
    its status is the expected number, the body is the one returned, and
    -- only if the expected status is below 400 -- its headers have a
    [content-type] that includes [application/json].  Whatever else it
    is given, [undefined] included, it throws an assertion failure and
    nothing else. *)
Theorem api_validateSuccessResponse_iff
    (response : value) (expectedStatus : option Z) (body : value) :
  let s := default 200 expectedStatus in
  (BaseApiClient.validateSuccessResponse response expectedStatus = Return body
   ↔ has_property response "status" = true
     ∧ has_property response "body" = true
     ∧ has_property response "headers" = true
     ∧ get_prop response "status" = Return (VNum s)
     ∧ get_prop response "body" = Return body
     ∧ (s < 400 →
        ∃ headers contentType,
          get_prop response "headers" = Return headers
          ∧ has_property headers "content-type" = true
          ∧ get_prop headers "content-type" = Return contentType
          ∧ Chai.include contentType "application/json" = Return ()))
  ∧ passes_or_fails
      (BaseApiClient.validateSuccessResponse response expectedStatus).
Proof.
  intros s. unfold BaseApiClient.validateSuccessResponse. fold s.
  split; [split |].
  - intros H.
    apply bind_Return_inv in H as ([] & Hbasic & H1).
    apply validateBasicResponse_iff in Hbasic as (Hp1 & Hp2 & Hp3).
    apply bind_Return_inv in H1 as (status & Hstatus & H2).
    apply bind_Return_inv in H2 as ([] & Hequal & H3).
    apply bind_Return_inv in H3 as ([] & Hjson & H4).
    unfold Chai.equal, Chai.assert in Hequal.
    destruct (strict_eq_num status s) eqn:Heq; [| done].
    apply strict_eq_num_true in Heq as ->.
    repeat split; try done.
    intros Hlt. rewrite (proj2 (Z.ltb_lt s 400) Hlt) in Hjson.
    by apply validateJsonContentType_iff.
  - intros (Hs & Hb & Hh & Hstatus & Hbody & Hjson).
    rewrite (proj2 (validateBasicResponse_iff response)
               (conj Hs (conj Hb Hh))).
    simpl.
    rewrite Hstatus. simpl. unfold Chai.equal. simpl.
    rewrite Z.eqb_refl. simpl.
    destruct (Z.ltb_spec s 400) as [Hlt|Hge]; simpl; [| done].
    by rewrite (proj2 (validateJsonContentType_iff response) (Hjson Hlt)).
  - apply bind_passes_or_fails;
      [apply validateBasicResponse_passes_or_fails |].
    intros [] (Hs & _)%validateBasicResponse_iff.
    pose proof (has_property_defined _ _ Hs) as Hdefined.
    destruct (get_prop_defined response "status" Hdefined) as [status ->].
    simpl.
    apply bind_passes_or_fails; [apply assert_passes_or_fails | intros _ _].
    apply bind_passes_or_fails.
    + destruct (s <? 400);
        [by apply validateJsonContentType_passes_or_fails | left; eauto].
    + intros _ _. left. by apply get_prop_defined.
Qed.

(* ===================================================================== *)
(** ** The setters of the client                                         *)
(* ===================================================================== *)

Lemma HttpClient_eq (c1 c2 : HttpClient.t) :
  HttpClient.baseUrl c1 = HttpClient.baseUrl c2 →
  HttpClient.defaultHeaders c1 = HttpClient.defaultHeaders c2 →
  HttpClient.timeout c1 = HttpClient.timeout c2 →
  c1 = c2.
Proof. destruct c1, c2; simpl; by intros -> -> ->. Qed.

(** X9.  Setting default headers twice is setting their merge once; a
    setter never removes a header, and leaves the keys it is not given
    as they were; setting the same headers again changes nothing. *)
Theorem setDefaultHeaders_composes
    (this : HttpClient.t) (h1 h2 : gmap string value) :
  HttpClient.setDefaultHeaders (HttpClient.setDefaultHeaders this h1) h2
    = HttpClient.setDefaultHeaders this (spread h1 h2)
  ∧ dom (HttpClient.defaultHeaders this)
    ⊆ dom (HttpClient.defaultHeaders (HttpClient.setDefaultHeaders this h1))
  ∧ (∀ k, h1 !! k = None →
       HttpClient.defaultHeaders (HttpClient.setDefaultHeaders this h1) !! k
       = HttpClient.defaultHeaders this !! k)
  ∧ HttpClient.setDefaultHeaders (HttpClient.setDefaultHeaders this h1) h1
    = HttpClient.setDefaultHeaders this h1.
Proof.
  split; [| split; [| split]].
  - apply HttpClient_eq; simpl; try done.
    unfold spread. by rewrite (assoc_L (∪)).
  - simpl. unfold spread. rewrite dom_union. set_solver.
  - intros k Hk. simpl. rewrite lookup_spread. by rewrite Hk.
  - apply HttpClient_eq; simpl; try done.
    unfold spread. by rewrite (assoc_L (∪)), (idemp_L (∪)).
Qed.

(** X10.  Of two tokens set one after the other only the second is
    left: the instance is the one that setting the second token alone
    gives.  The token is made a string as a template literal does it, so
    a token that is left out gives the header [Bearer undefined]. *)
Theorem setAuthToken_last_wins (this : HttpClient.t) (t1 t2 : value) :
  HttpClient.setAuthToken (HttpClient.setAuthToken this t1) t2
    = HttpClient.setAuthToken this t2
  ∧ HttpClient.defaultHeaders (HttpClient.setAuthToken this VUndefined)
      !! "Authorization" = Some (VStr "Bearer undefined").
Proof.
  split.
  - apply HttpClient_eq; simpl; try done.
    apply map_eq. intros k. rewrite !lookup_spread.
    destruct (decide (k = "Authorization")) as [-> | Hne].
    + by rewrite !lookup_singleton_eq.
    + by rewrite !lookup_singleton_ne.
  - simpl. rewrite lookup_spread. by rewrite lookup_singleton_eq.
Qed.

(* ===================================================================== *)
(** ** Replies                                                           *)
(* ===================================================================== *)

(** X11.  When the transport resolves the request of a verb with a
    response object, the verb returns that response with [duration] set
    to the time that has passed -- in place of a [duration] the response
    may have had -- and every other property as it was; the world is as
    the transport left it. *)
Theorem verb_success_adds_only_duration
    {World : Type} (Date_now : World → Z)
    (transport : HttpClient.Request → World → result value * World)
    (m : HttpClient.method) (this : HttpClient.t) (endpoint : value)
    (data : option value) (headers : option (gmap string value))
    (w w' : World) (props : gmap string value) :
  transport (HttpClient.request_of m this endpoint data headers) w
    = (Return (VObj props), w') →
  ∃ response,
    HttpClient.call Date_now transport m this endpoint data headers w
      = (Return response, w')
    ∧ get_prop response "duration" = Return (VNum (Date_now w' - Date_now w))
    ∧ ∀ k, k ≠ "duration" → get_prop response k = get_prop (VObj props) k.
Proof.
  intros Htransport.
  exists (VObj (<["duration" := VNum (Date_now w' - Date_now w)]> props)).
  rewrite call_timed, (timed_resolved _ _ _ _ _ _ _ Htransport).
  split; [done |]. split.
  - simpl. by rewrite lookup_insert_eq.
  - intros k Hk. simpl. by rewrite lookup_insert_ne.
Qed.

Lemma verb_success_adds_only_duration_witness :
  ∃ response,
    HttpClient.post Samples.logged_now Samples.answering Samples.client
      (VStr "/users") (Some Samples.user) None (40, [])
      = (Return response, (55, ["https://jsonplaceholder.typicode.com/users"]))
    ∧ get_prop response "duration" = Return (VNum 15)
    ∧ ∀ k, k ≠ "duration" →
           get_prop response k = get_prop Samples.ok_response k.
Proof.
  apply (verb_success_adds_only_duration
           Samples.logged_now Samples.answering HttpClient.POST
           Samples.client (VStr "/users") (Some Samples.user) None
           (40, []) (55, ["https://jsonplaceholder.typicode.com/users"])).
  reflexivity.
Defined.

(* ===================================================================== *)
(** ** More on retry                                                     *)
(* ===================================================================== *)

(** X12.  With a negative [maxRetries] the loop of [retry] is not
    entered: the operation is never called, nothing is slept, and the
    run resolves with [undefined]. *)
Theorem retry_negative_never_calls
    {World : Type} (sleep : Z → World → World)
    (fn : World → result value * World) (K : Z) (delay : option Z)
    (w : World) :
  K < 0 →
  retry sleep fn (Some K) delay w = mkRun (Return VUndefined) w [].
Proof.
  intros HK. unfold retry. simpl. rewrite retry_from_eq.
  by rewrite (proj2 (Z.leb_gt 0 K)) by lia.
Qed.

Lemma retry_negative_never_calls_witness :
  retry Samples.no_effect Samples.hopeless (Some (-1)) None 0%nat
  = mkRun (Return VUndefined) 0%nat [].
Proof.
  apply (retry_negative_never_calls
           Samples.no_effect Samples.hopeless (-1) None 0%nat).
  lia.
Defined.

Lemma total_app l1 l2 : total (l1 ++ l2) = total l1 + total l2.
Proof. induction l1 as [|x l1 IH]; simpl; [done | rewrite IH; lia]. Qed.

Lemma total_backoff delay n :
  total ((λ i, delay * 2 ^ Z.of_nat i) <$> seq 0 n)
  = delay * (2 ^ Z.of_nat n - 1).
Proof.
  induction n as [|n IH]; [simpl; lia |].
  rewrite seq_S, fmap_app, total_app, IH. simpl.
  rewrite Nat2Z.inj_succ, Z.pow_succ_r by lia. lia.
Qed.

(** What a run leaves behind when every call allowed fails. *)
Lemma retry_exhausted
    {World : Type} (sleep : Z → World → World)
    (fn : World → result value * World) (K delay : Z) (w : World) :
  0 ≤ K →
  (∀ j, (j ≤ Z.to_nat K)%nat → ∃ e, attempt sleep fn delay j w = Throw e) →
  let r := retry sleep fn (Some K) (Some delay) w in
  outcome r = attempt sleep fn delay (Z.to_nat K) w
  ∧ trace r = (backoff_from delay 0 (Z.to_nat K) ++ [Invoked])%list.
Proof.
  intros HK Hfail r. subst r. unfold retry, attempt in *. simpl.
  rewrite (retry_from_failures sleep fn delay K (Z.to_nat K) 0 w);
    [| lia | intros j Hj; apply Hfail; lia].
  rewrite Z.add_0_l, Z2Nat.id by done.
  destruct (Hfail (Z.to_nat K) ltac:(lia)) as [e He].
  rewrite (retry_from_eq sleep fn delay K K).
  rewrite Z.leb_refl, Z.eqb_refl.
  by destruct (fn (world_from sleep fn delay 0 (Z.to_nat K) w))
    as [[v|e'] w1].
Qed.

(** X13.  When every call fails, [retry] has slept
    [delay * (2^maxRetries - 1)] milliseconds in all by the time it
    gives up. *)
Theorem retry_total_backoff
    {World : Type} (sleep : Z → World → World)
    (fn : World → result value * World) (K delay : Z) (w : World) :
  0 ≤ K →
  (∀ j, (j ≤ Z.to_nat K)%nat → ∃ e, attempt sleep fn delay j w = Throw e) →
  total (delays (trace (retry sleep fn (Some K) (Some delay) w)))
  = delay * (2 ^ K - 1).
Proof.
  intros HK Hfail.
  destruct (retry_exhausted sleep fn K delay w HK Hfail) as [_ ->].
  rewrite delays_backoff. simpl. rewrite app_nil_r.
  rewrite <- (Z2Nat.id K) at 2 by done.
  rewrite <- total_backoff. f_equal.
Qed.

Lemma retry_total_backoff_witness :
  total (delays (trace (retry Samples.no_effect Samples.hopeless
                          (Some 5) (Some 200) 0%nat)))
  = 200 * (2 ^ 5 - 1).
Proof.
  apply (retry_total_backoff Samples.no_effect Samples.hopeless 5 200 0%nat).
  - lia.
  - intros j _. by eexists.
Defined.

(** X14.  [requestWithRetry] retries with a base delay of one second,
    three times unless told otherwise: a request that keeps failing is
    made [maxRetries + 1] times, with sleeps of 1000, 2000, 4000, ...
    milliseconds between the requests, and the error of the last request
    is thrown as it is. *)
Theorem requestWithRetry_backoff
    {World : Type} (sleep : Z → World → World)
    (requestFn : World → result value * World) (maxRetries : option Z)
    (w : World) :
  let K := default 3 maxRetries in
  let r := requestWithRetry sleep requestFn maxRetries w in
  0 ≤ K →
  (∀ j, (j ≤ Z.to_nat K)%nat →
        ∃ e, attempt sleep requestFn 1000 j w = Throw e) →
  outcome r = attempt sleep requestFn 1000 (Z.to_nat K) w
  ∧ invocations (trace r) = S (Z.to_nat K)
  ∧ delays (trace r) = (λ i, 1000 * 2 ^ Z.of_nat i) <$> seq 0 (Z.to_nat K)
  ∧ total (delays (trace r)) = 1000 * (2 ^ K - 1).
Proof.
  intros K r HK Hfail. subst r. unfold requestWithRetry. fold K.
  change (retry sleep requestFn (Some K) None w)
    with (retry sleep requestFn (Some K) (Some 1000) w).
  destruct (retry_exhausted sleep requestFn K 1000 w HK Hfail) as [-> Htrace].
  split; [done |].
  rewrite Htrace, invocations_backoff, delays_backoff. simpl.
  rewrite app_nil_r. split; [lia |]. split; [done |].
  rewrite <- (Z2Nat.id K) at 2 by done.
  rewrite <- total_backoff. f_equal.
Qed.

Lemma requestWithRetry_backoff_witness :
  outcome (requestWithRetry Samples.no_effect Samples.hopeless None 0%nat)
    = Throw (new_Error "attempt 3")
  ∧ invocations
      (trace (requestWithRetry Samples.no_effect Samples.hopeless None 0%nat))
    = 4%nat
  ∧ delays
      (trace (requestWithRetry Samples.no_effect Samples.hopeless None 0%nat))
    = [1000; 2000; 4000]
  ∧ total
      (delays
         (trace (requestWithRetry Samples.no_effect Samples.hopeless None
                   0%nat)))
    = 7000.
Proof.
  apply (requestWithRetry_backoff Samples.no_effect Samples.hopeless None
           0%nat).
  - simpl. lia.
  - intros j _. by eexists.
Defined.

(* ===================================================================== *)
(** ** The resource client of users                                      *)
(* ===================================================================== *)

Lemma get_timed {World : Type} (Date_now : World → Z)
    (transport : HttpClient.Request → World → result value * World)
    this endpoint headers w :
  HttpClient.get Date_now transport this endpoint headers w
  = HttpClient.timed Date_now transport this
      (HttpClient.request_of HttpClient.GET this endpoint None headers) w.
Proof. reflexivity. Qed.

Lemma clientErrorStatus_passes_or_fails obj :
  match obj with VUndefined | VNull => False | _ => True end →
  passes_or_fails (Chai.clientErrorStatus obj).
Proof.
  intros Hdefined. unfold Chai.clientErrorStatus.
  destruct (either_prop_passes obj "status" "statusCode" Hdefined)
    as [status ->].
  simpl. apply assert_passes_or_fails.
Qed.

(** X15.  [verifyNotFound(userId)] asks for [/users/<userId>] and turns
    the outcome round: a rejection that carries a response with status
    404 gives that response, timed; a rejection that carries a response
    with any other status gives an assertion failure; a reply that the
    transport resolves gives the error [Expected request to fail but it
    succeeded]; a timeout comes through as the timeout error of the
    client. *)
Theorem verifyNotFound_outcomes
    {World : Type} (Date_now : World → Z)
    (transport : HttpClient.Request → World → result value * World)
    (client : HttpClient.t) (userId : Z) (w w' : World)
    (settled : result value) :
  let req :=
    HttpClient.request_of HttpClient.GET client
      (VStr ("/users/" ++ pretty userId)) None None in
  let result :=
    UsersApiClient.verifyNotFound Date_now transport client userId w in
  transport req w = (settled, w') →
  (∀ error props,
     settled = Throw error →
     get_prop error "response" = Return (VObj props) →
     props !! "status" = Some (VNum 404) →
     result
     = (Return (VObj (<["duration" := VNum (Date_now w' - Date_now w)]>
                        props)), w'))
  ∧ (∀ error props s,
       settled = Throw error →
       get_prop error "response" = Return (VObj props) →
       props !! "status" = Some (VNum s) → s ≠ 404 →
       ∃ msg, result = (Throw (Chai.AssertionError msg), w'))
  ∧ (∀ props,
       settled = Return (VObj props) →
       result
       = (Throw (new_Error "Expected request to fail but it succeeded"), w'))
  ∧ (∀ error r t,
       settled = Throw error →
       get_prop error "response" = Return r → truthy r = false →
       get_prop error "timeout" = Return t → truthy t = true →
       result
       = (Throw (new_Error ("Request timeout after "
                            ++ pretty (HttpClient.timeout client) ++ "ms")),
          w')).
Proof.
  intros req result Htransport. subst result.
  unfold UsersApiClient.verifyNotFound, BaseApiClient.expectClientError,
    expectClientError_body.
  change (VStr (UsersApiClient.endpoint ++ "/" ++ pretty userId))
    with (VStr ("/users/" ++ pretty userId)).
  rewrite get_timed. fold req.
  split; [| split; [| split]].
  - intros error props -> Hresponse Hstatus.
    rewrite (timed_rejected _ _ _ _ _ _ _ Htransport).
    rewrite (handleError_with_response _ _ _ _ _ _ Hresponse). simpl.
    rewrite (get_response_seen_through _ _ _ Hresponse eq_refl). simpl.
    unfold Chai.clientErrorStatus, Chai.either_prop. simpl.
    rewrite lookup_insert_ne by done. rewrite Hstatus. simpl.
    done.
  - intros error props s -> Hresponse Hstatus Hne.
    rewrite (timed_rejected _ _ _ _ _ _ _ Htransport).
    rewrite (handleError_with_response _ _ _ _ _ _ Hresponse). simpl.
    rewrite (get_response_seen_through _ _ _ Hresponse eq_refl). simpl.
    destruct (clientErrorStatus_passes_or_fails
                (VObj (<["duration" := VNum (Date_now w' - Date_now w)]> props))
                I) as [[[] ->] | [msg ->]]; simpl; [| eauto].
    rewrite lookup_insert_ne by done. rewrite Hstatus. simpl.
    unfold Chai.equal. simpl.
    rewrite (proj2 (Z.eqb_neq s 404) Hne). simpl. eauto.
  - intros props ->.
    by rewrite (timed_resolved _ _ _ _ _ _ _ Htransport).
  - intros error r t -> Hr Hfalsy Ht Htruthy.
    rewrite (timed_rejected _ _ _ _ _ _ _ Htransport).
    by rewrite (handleError_timeout _ _ _ _ _ _ _ Hr Hfalsy Ht Htruthy).
Qed.

Lemma verifyNotFound_outcomes_witness :
  UsersApiClient.verifyNotFound id
    (Samples.rejecting Samples.not_found_error)
    UsersApiClient.constructor 9999 1000
  = (Return (VObj (<["duration" := VNum 120]> Samples.not_found_response)),
     1120)
  ∧ UsersApiClient.verifyNotFound id
      (MoreSamples.replying Samples.ok_response)
      UsersApiClient.constructor 1 1000
    = (Throw (new_Error "Expected request to fail but it succeeded"), 1015).
Proof.
  split.
  - refine (proj1 (verifyNotFound_outcomes id
                     (Samples.rejecting Samples.not_found_error)
                     UsersApiClient.constructor 9999 1000 1120
                     (Throw Samples.not_found_error) _)
              Samples.not_found_error Samples.not_found_response _ _ _);
      reflexivity.
  - refine (proj1 (proj2 (proj2 (verifyNotFound_outcomes id
                     (MoreSamples.replying Samples.ok_response)
                     UsersApiClient.constructor 1 1000 1015
                     (Return Samples.ok_response) _)))
              _ _);
      reflexivity.
Defined.

Lemma for_each_Return_iff {A : Type} (f : A → result unit) (items : list A) :
  for_each f items = Return () ↔ Forall (λ x, f x = Return ()) items.
Proof.
  induction items as [|x items IH]; simpl.
  - split; [by constructor | done].
  - rewrite Forall_cons, <- IH. destruct (f x) as [[]|e]; simpl.
    + split; [done | by intros [_ ?]].
    + split; [done | by intros [? _]].
Qed.

Lemma for_each_passes_or_fails {A : Type} (f : A → result unit)
    (items : list A) :
  (∀ x, passes_or_fails (f x)) → passes_or_fails (for_each f items).
Proof.
  intros Hf. induction items as [|x items IH]; simpl; [left; eauto |].
  by apply bind_passes_or_fails.
Qed.

(** A reply with status 200, a JSON content type and a body is accepted,
    and its body returned. *)
Lemma validateSuccessResponse_json_ok props hprops contentType body :
  props !! "status" = Some (VNum 200) →
  props !! "headers" = Some (VObj hprops) →
  hprops !! "content-type" = Some (VStr contentType) →
  Chai.is_substring "application/json" contentType = true →
  props !! "body" = Some body →
  BaseApiClient.validateSuccessResponse (VObj props) None = Return body.
Proof.
  intros Hstatus Hheaders HcontentType Hjson Hbody.
  unfold BaseApiClient.validateSuccessResponse,
    responseValidations.validateBasicResponse,
    responseValidations.validateJsonContentType, Chai.property.
  simpl. rewrite Hstatus, Hbody, Hheaders. simpl.
  rewrite HcontentType. simpl. by rewrite Hjson.
Qed.

(** What an accepted reply is like. *)
Lemma validateSuccessResponse_Return_inv response expectedStatus body :
  BaseApiClient.validateSuccessResponse response expectedStatus
    = Return body →
  get_prop response "status" = Return (VNum (default 200 expectedStatus))
  ∧ get_prop response "body" = Return body.
Proof.
  unfold BaseApiClient.validateSuccessResponse. intros H.
  apply bind_Return_inv in H as ([] & _ & H1).
  apply bind_Return_inv in H1 as (status & Hstatus & H2).
  apply bind_Return_inv in H2 as ([] & Hequal & H3).
  apply bind_Return_inv in H3 as ([] & _ & H4).
  unfold Chai.equal, Chai.assert in Hequal.
  destruct (strict_eq_num status (default 200 expectedStatus)) eqn:Heq;
    [| done].
  by apply strict_eq_num_true in Heq as ->.
Qed.

(** X16.  On a reply with status 200, a JSON content type and an array
    as body, [getAll] returns the array exactly when the array is not
    empty and each of its elements passes the User schema; it throws an
    assertion failure otherwise -- so for the empty array. *)
Theorem getAll_accepts_iff
    {World : Type} (Date_now : World → Z)
    (transport : HttpClient.Request → World → result value * World)
    (client : HttpClient.t) (w w' : World)
    (props hprops aprops : gmap string value) (contentType : string)
    (users : list value) :
  transport
    (HttpClient.request_of HttpClient.GET client (VStr "/users") None None) w
    = (Return (VObj props), w') →
  props !! "status" = Some (VNum 200) →
  props !! "headers" = Some (VObj hprops) →
  hprops !! "content-type" = Some (VStr contentType) →
  Chai.is_substring "application/json" contentType = true →
  props !! "body" = Some (VArr users aprops) →
  let result := UsersApiClient.getAll Date_now transport client w in
  (result = (Return (VArr users aprops), w')
   ↔ users ≠ []
     ∧ Forall (λ u, schemaValidations.validateUserSchema u = Return ()) users)
  ∧ (result = (Return (VArr users aprops), w')
     ∨ ∃ msg, result = (Throw (Chai.AssertionError msg), w')).
Proof.
  intros Htransport Hstatus Hheaders HcontentType Hjson Hbody result.
  subst result. unfold UsersApiClient.getAll.
  change (VStr UsersApiClient.endpoint) with (VStr "/users").
  rewrite get_timed, (timed_resolved _ _ _ _ _ _ _ Htransport). simpl.
  rewrite (validateSuccessResponse_json_ok _ hprops contentType
             (VArr users aprops));
    [| by rewrite lookup_insert_ne | by rewrite lookup_insert_ne | done
     | done | by rewrite lookup_insert_ne].
  simpl. unfold Chai.length_compare, Chai.property. simpl.
  unfold Chai.gt_num. simpl.
  destruct users as [|u users]; simpl.
  - split; [split; [done | by intros [? _]] | right; eauto].
  - pose proof (for_each_Return_iff schemaValidations.validateUserSchema
                  (u :: users)) as Hiff.
    pose proof (for_each_passes_or_fails schemaValidations.validateUserSchema
                  (u :: users) validateUserSchema_passes_or_fails) as Hcases.
    simpl in Hiff, Hcases.
    destruct Hcases as [[[] Hok] | [msg Hfail]].
    + rewrite Hok. simpl. split; [| by left].
      split; [intros _; split; [done | by apply Hiff] | done].
    + rewrite Hfail. simpl. split; [| right; eauto].
      split; [done |]. intros [_ Hall%Hiff]. congruence.
Qed.

Lemma getAll_accepts_iff_witness :
  (UsersApiClient.getAll id
     (MoreSamples.replying (MoreSamples.users_response [Samples.user]))
     UsersApiClient.constructor 1000
   = (Return (VArr [Samples.user] ∅), 1015)
   ↔ [Samples.user] ≠ []
     ∧ Forall (λ u, schemaValidations.validateUserSchema u = Return ())
         [Samples.user])
  ∧ ∃ msg,
      UsersApiClient.getAll id
        (MoreSamples.replying (MoreSamples.users_response []))
        UsersApiClient.constructor 1000
      = (Throw (Chai.AssertionError msg), 1015).
Proof.
  split.
  - refine (proj1 (getAll_accepts_iff id
                     (MoreSamples.replying
                        (MoreSamples.users_response [Samples.user]))
                     UsersApiClient.constructor 1000 1015 _ _ ∅
                     "application/json; charset=utf-8" [Samples.user]
                     _ _ _ _ _ _));
      reflexivity.
  - destruct (proj2 (getAll_accepts_iff id
                       (MoreSamples.replying (MoreSamples.users_response []))
                       UsersApiClient.constructor 1000 1015 _ _ ∅
                       "application/json; charset=utf-8" []
                       eq_refl eq_refl eq_refl eq_refl eq_refl eq_refl))
      as [Haccepted | Hrefused]; [discriminate Haccepted | exact Hrefused].
Defined.

(** X17.  A user that [getById(userId)] returns passes the User schema
    and has the [id] that was asked for, and it is the body of a reply
    with status 200 that the transport gave to the request for
    [/users/<userId>]. *)
Theorem getById_returns_the_user_asked_for
    {World : Type} (Date_now : World → Z)
    (transport : HttpClient.Request → World → result value * World)
    (client : HttpClient.t) (userId : Z) (w w' : World) (user : value) :
  UsersApiClient.getById Date_now transport client userId w
    = (Return user, w') →
  schemaValidations.validateUserSchema user = Return ()
  ∧ get_prop user "id" = Return (VNum userId)
  ∧ ∃ response,
      transport
        (HttpClient.request_of HttpClient.GET client
           (VStr ("/users/" ++ pretty userId)) None None) w
        = (Return response, w')
      ∧ get_prop response "status" = Return (VNum 200)
      ∧ get_prop response "body" = Return user.
Proof.
  unfold UsersApiClient.getById.
  change (VStr (UsersApiClient.endpoint ++ "/" ++ pretty userId))
    with (VStr ("/users/" ++ pretty userId)).
  rewrite get_timed.
  destruct (HttpClient.timed _ _ _ _ w) as [settled w1] eqn:Htimed.
  intros [= H <-].
  apply bind_Return_inv in H as (timedResponse & -> & H1).
  apply bind_Return_inv in H1 as (u & Hvalid & H2).
  apply bind_Return_inv in H2 as ([] & Hschema & H3).
  apply bind_Return_inv in H3 as (userIdFound & Hid & H4).
  apply bind_Return_inv in H4 as ([] & Hequal & [= ->]).
  unfold Chai.equal, Chai.assert in Hequal.
  destruct (strict_eq_num userIdFound userId) eqn:Heq; [| done].
  apply strict_eq_num_true in Heq as ->.
  apply timed_Return_inv in Htimed as (response & Htransport & Hset).
  apply validateSuccessResponse_Return_inv in Hvalid as [Hstatus Hbody].
  split; [done |]. split; [done |].
  exists response. split; [done |].
  rewrite <- (get_prop_set_other _ _ _ _ "status" Hset) by done.
  by rewrite <- (get_prop_set_other _ _ _ _ "body" Hset) by done.
Qed.

Lemma getById_returns_the_user_asked_for_witness :
  schemaValidations.validateUserSchema Samples.user = Return ()
  ∧ get_prop Samples.user "id" = Return (VNum 1)
  ∧ ∃ response,
      MoreSamples.replying
        (VObj {[ "status" := VNum 200; "body" := Samples.user;
                 "headers" := Samples.json_headers ]})
        (HttpClient.request_of HttpClient.GET UsersApiClient.constructor
           (VStr ("/users/" ++ pretty 1)) None None) 1000
        = (Return response, 1015)
      ∧ get_prop response "status" = Return (VNum 200)
      ∧ get_prop response "body" = Return Samples.user.
Proof.
  apply (getById_returns_the_user_asked_for id
           (MoreSamples.replying
              (VObj {[ "status" := VNum 200; "body" := Samples.user;
                       "headers" := Samples.json_headers ]}))
           UsersApiClient.constructor 1 1000 1015 Samples.user).
  reflexivity.
Defined.

(* ===================================================================== *)
(** ** The check of the order in getSorted                               *)
(* ===================================================================== *)


Section Sorting.

Context {World : Type}.
Variable Date_now : World → Z.
Variable transport : HttpClient.Request → World → result value * World.
Variable localeCompare : string → string → Z.

Abbreviation sorting_round := (PostsApiClient.sorting_round localeCompare).
Abbreviation validateSorting := (PostsApiClient.validateSorting localeCompare).



(** Strings are always found in order when [localeCompare] only answers
    with numbers from -1 to 1. *)
Lemma validateSorting_strings posts sortField sortOrder :
  (∀ a b, -1 ≤ localeCompare a b ≤ 1) →
  Forall (λ p, ∃ s, get_prop p sortField = Return (VStr s)) posts →
  validateSorting posts sortField sortOrder = Return ().
Proof.
  intros Hrange Hstrings. unfold PostsApiClient.validateSorting.
  destruct (1 <? length posts)%nat; [| done].
  apply for_each_Return_iff, Forall_forall. intros i Hi%elem_of_seq.
  unfold PostsApiClient.sorting_round.
  destruct (lookup_lt_is_Some_2 posts i ltac:(lia)) as [current Hcurrent].
  destruct (lookup_lt_is_Some_2 posts (i - 1) ltac:(lia))
    as [previous Hprevious].
  rewrite Hcurrent, Hprevious. simpl.
  destruct (proj1 (Forall_lookup _ _) Hstrings _ _ Hcurrent) as [c ->].
  destruct (proj1 (Forall_lookup _ _) Hstrings _ _ Hprevious) as [p ->].
  simpl. specialize (Hrange c p).
  destruct (String.eqb sortOrder "asc"); unfold Chai.assert; simpl.
  - by rewrite (proj2 (Z.leb_le (-1) (localeCompare c p))) by lia.
  - by rewrite (proj2 (Z.leb_le (localeCompare c p) 1)) by lia.
Qed.

(** A reply that [getSorted] accepts as a listing. *)
Lemma getSorted_on_listing client sortField sortOrder w w'
    props hprops aprops contentType posts :
  transport
    (HttpClient.request_of HttpClient.GET client
       (VStr ("/posts?_sort=" ++ default "id" sortField ++ "&_order="
              ++ default "asc" sortOrder)) None None) w
    = (Return (VObj props), w') →
  props !! "status" = Some (VNum 200) →
  props !! "headers" = Some (VObj hprops) →
  hprops !! "content-type" = Some (VStr contentType) →
  Chai.is_substring "application/json" contentType = true →
  props !! "body" = Some (VArr posts aprops) →
  PostsApiClient.getSorted Date_now transport localeCompare client
    sortField sortOrder w
  = (validateSorting posts (default "id" sortField)
       (default "asc" sortOrder) ;;
     Return (VArr posts aprops), w').
Proof.
  intros Htransport Hstatus Hheaders HcontentType Hjson Hbody.
  unfold PostsApiClient.getSorted.
  change (VStr (PostsApiClient.endpoint ++ "?_sort=" ++ default "id" sortField
                ++ "&_order=" ++ default "asc" sortOrder))
    with (VStr ("/posts?_sort=" ++ default "id" sortField ++ "&_order="
                ++ default "asc" sortOrder)).
  rewrite get_timed, (timed_resolved _ _ _ _ _ _ _ Htransport). simpl.
  rewrite (validateSuccessResponse_json_ok _ hprops contentType
             (VArr posts aprops));
    [| by rewrite lookup_insert_ne | by rewrite lookup_insert_ne | done
     | done | by rewrite lookup_insert_ne].
  done.
Qed.

End Sorting.



(** X19.  Where [localeCompare] answers with -1, 0 or 1 only, the check
    of the order of a field of strings can not fail: on a reply that
    lists posts whose sort field is a string, [getSorted] returns the
    listing in whatever order it is, ascending or descending asked. *)
Theorem getSorted_accepts_any_order_of_strings
    {World : Type} (Date_now : World → Z)
    (transport : HttpClient.Request → World → result value * World)
    (localeCompare : string → string → Z)
    (client : HttpClient.t) (sortField sortOrder : option string)
    (w w' : World) (props hprops aprops : gmap string value)
    (contentType : string) (posts : list value) :
  (∀ a b, -1 ≤ localeCompare a b ≤ 1) →
  transport
    (HttpClient.request_of HttpClient.GET client
       (VStr ("/posts?_sort=" ++ default "id" sortField ++ "&_order="
              ++ default "asc" sortOrder)) None None) w
    = (Return (VObj props), w') →
  props !! "status" = Some (VNum 200) →
  props !! "headers" = Some (VObj hprops) →
  hprops !! "content-type" = Some (VStr contentType) →
  Chai.is_substring "application/json" contentType = true →
  props !! "body" = Some (VArr posts aprops) →
  Forall (λ p, ∃ s, get_prop p (default "id" sortField) = Return (VStr s))
    posts →
  PostsApiClient.getSorted Date_now transport localeCompare client
    sortField sortOrder w
  = (Return (VArr posts aprops), w').
Proof.
  intros Hrange Htransport Hstatus Hheaders HcontentType Hjson Hbody Hstrings.
  rewrite (getSorted_on_listing _ _ _ _ _ _ _ _ _ _ _ _ _
             Htransport Hstatus Hheaders HcontentType Hjson Hbody).
  by rewrite validateSorting_strings.
Qed.

Lemma sign_compare_range a b : -1 ≤ MoreSamples.sign_compare a b ≤ 1.
Proof.
  unfold MoreSamples.sign_compare. destruct (String.compare a b); lia.
Qed.

Lemma getSorted_accepts_any_order_of_strings_witness :
  PostsApiClient.getSorted id
    (MoreSamples.replying
       (MoreSamples.users_response MoreSamples.unsorted_titles))
    MoreSamples.sign_compare UsersApiClient.constructor
    (Some "title") (Some "asc") 1000
  = (Return (VArr MoreSamples.unsorted_titles ∅), 1015).
Proof.
  refine (getSorted_accepts_any_order_of_strings id
            (MoreSamples.replying
               (MoreSamples.users_response MoreSamples.unsorted_titles))
            MoreSamples.sign_compare UsersApiClient.constructor
            (Some "title") (Some "asc") 1000 1015 _ _ ∅
            "application/json; charset=utf-8" MoreSamples.unsorted_titles
            sign_compare_range _ _ _ _ _ _ _);
    try reflexivity.
  repeat constructor; by eexists.
Defined.

(* ===================================================================== *)
(** ** The address check                                                 *)
(* ===================================================================== *)

Lemma string_app_nil_inv (s1 s2 : string) :
  s1 ++ s2 = "" → s1 = "" ∧ s2 = "".
Proof. destruct s1; simpl; [done | discriminate]. Qed.

Lemma string_app_cons_inv (s1 s2 s : string) (a : ascii) :
  s1 ++ s2 = String a s →
  (s1 = "" ∧ s2 = String a s) ∨ (∃ s1', s1 = String a s1' ∧ s = s1' ++ s2).
Proof.
  destruct s1 as [|b s1']; simpl; intros Heq; [by left |].
  injection Heq as -> <-. right. by exists s1'.
Qed.

Lemma nullable_matches (r : DataGenerators.regex) :
  DataGenerators.nullable r = true ↔ matches r "".
Proof.
  split.
  - induction r as [| | p | r1 IH1 r2 IH2 | r1 IH1 r2 IH2 | r IH]; simpl;
      intros Hnull; try discriminate.
    + constructor.
    + apply andb_true_iff in Hnull as [H1 H2].
      apply (matches_cat r1 r2 "" ""); auto.
    + apply orb_true_iff in Hnull as [H1 | H2].
      * apply matches_alt_l; auto.
      * apply matches_alt_r; auto.
    + constructor.
  - intros Hm. remember "" as s eqn:Hs.
    induction Hm as [| p a Hp | r1 r2 s1 s2 _ IH1 _ IH2 | r1 r2 s _ IH
                     | r1 r2 s _ IH | r | r s1 s2 _ _ _ _]; simpl;
      try done.
    + apply string_app_nil_inv in Hs as [-> ->].
      by rewrite IH1, IH2.
    + by rewrite IH.
    + rewrite IH by done. apply orb_true_r.
Qed.

Lemma deriv_matches (a : ascii) (r : DataGenerators.regex) (s : string) :
  matches (DataGenerators.deriv a r) s ↔ matches r (String a s).
Proof.
  split.
  - revert s.
    induction r as [| | p | r1 IH1 r2 IH2 | r1 IH1 r2 IH2 | r IH]; simpl;
      intros s Hm.
    + inversion Hm.
    + inversion Hm.
    + destruct (p a) eqn:Hp; inversion Hm; subst. by constructor.
    + destruct (DataGenerators.nullable r1) eqn:Hnull.
      * inversion Hm as [| | | ? ? ? Hl | ? ? ? Hr | |]; subst.
        -- inversion Hl as [| | ? ? s1 s2 H1 H2 | | | |]; subst.
           apply (matches_cat r1 r2 (String a s1) s2); auto.
        -- apply (matches_cat r1 r2 "" (String a s)); auto.
           by apply nullable_matches.
      * inversion Hm as [| | ? ? s1 s2 H1 H2 | | | |]; subst.
        apply (matches_cat r1 r2 (String a s1) s2); auto.
    + inversion Hm; subst.
      * apply matches_alt_l; auto.
      * apply matches_alt_r; auto.
    + inversion Hm as [| | ? ? s1 s2 H1 H2 | | | |]; subst.
      apply (matches_star_cons r (String a s1) s2); auto.
  - intros Hm. remember (String a s) as t eqn:Ht. revert s Ht.
    induction Hm as [| p b Hp | r1 r2 s1 s2 Hm1 IH1 Hm2 IH2
                     | r1 r2 s0 _ IH | r1 r2 s0 _ IH | r
                     | r s1 s2 Hm1 IH1 Hm2 IH2]; intros s Ht; simpl;
      try discriminate.
    + injection Ht as -> <-. rewrite Hp. constructor.
    + apply string_app_cons_inv in Ht as [[-> ->] | (s1' & -> & ->)].
      * rewrite (proj2 (nullable_matches r1) Hm1).
        apply matches_alt_r; auto.
      * destruct (DataGenerators.nullable r1).
        -- apply matches_alt_l. constructor; auto.
        -- constructor; auto.
    + apply matches_alt_l; auto.
    + apply matches_alt_r; auto.
    + apply string_app_cons_inv in Ht as [[-> ->] | (s1' & -> & ->)].
      * apply (IH2 s eq_refl).
      * constructor; auto.
Qed.

(** The matcher decides [matches]. *)
Lemma test_matches (r : DataGenerators.regex) (s : string) :
  DataGenerators.test r s = true ↔ matches r s.
Proof.
  revert r. induction s as [|a s IH]; intros r; simpl.
  - apply nullable_matches.
  - rewrite IH. apply deriv_matches.
Qed.

Lemma matches_Cat_iff (r1 r2 : DataGenerators.regex) (s : string) :
  matches (DataGenerators.Cat r1 r2) s
  ↔ ∃ s1 s2, s = s1 ++ s2 ∧ matches r1 s1 ∧ matches r2 s2.
Proof.
  split.
  - intros Hm. inversion Hm as [| | ? ? s1 s2 H1 H2 | | | |]; subst.
    by exists s1, s2.
  - intros (s1 & s2 & -> & H1 & H2). by constructor.
Qed.

Lemma matches_Chars_iff (p : ascii → bool) (s : string) :
  matches (DataGenerators.Chars p) s ↔ ∃ a, s = String a "" ∧ p a = true.
Proof.
  split.
  - intros Hm. inversion Hm; subst. by eexists.
  - intros (a & -> & Hp). by constructor.
Qed.

Lemma matches_Star_Chars_iff (p : ascii → bool) (s : string) :
  matches (DataGenerators.Star (DataGenerators.Chars p)) s
  ↔ all_chars p s = true.
Proof.
  split.
  - intros Hm.
    remember (DataGenerators.Star (DataGenerators.Chars p)) as r eqn:Hr.
    induction Hm as [| | | | | r0 | r0 s1 s2 Hm1 _ Hm2 IH2];
      try discriminate; [done |].
    injection Hr as ->.
    apply matches_Chars_iff in Hm1 as (a & -> & Hp). simpl.
    rewrite Hp. by apply IH2.
  - induction s as [|a s IH]; simpl; intros Hall; [constructor |].
    apply andb_true_iff in Hall as [Hp Hall].
    apply (matches_star_cons _ (String a "") s); [by constructor | auto].
Qed.

Lemma matches_Plus_Chars_iff (p : ascii → bool) (s : string) :
  matches (DataGenerators.Plus (DataGenerators.Chars p)) s
  ↔ s ≠ "" ∧ all_chars p s = true.
Proof.
  unfold DataGenerators.Plus. rewrite matches_Cat_iff. split.
  - intros (s1 & s2 & -> & (a & -> & Hp)%matches_Chars_iff
            & Hall%matches_Star_Chars_iff).
    split; [done |]. simpl. rewrite Hp. exact Hall.
  - intros [Hne Hall]. destruct s as [|a s]; [done |].
    simpl in Hall. apply andb_true_iff in Hall as [Hp Hall].
    exists (String a ""), s. split; [done |]. split.
    + by constructor.
    + by apply matches_Star_Chars_iff.
Qed.

Lemma matches_one_char_iff (c : ascii) (s : string) :
  matches (DataGenerators.Chars (Ascii.eqb c)) s ↔ s = String c "".
Proof.
  rewrite matches_Chars_iff. split.
  - by intros (a & -> & ->%Ascii.eqb_eq).
  - intros ->. exists c. by rewrite Ascii.eqb_refl.
Qed.

(** What [emailRegex] matches. *)
Lemma emailRegex_matches (s : string) :
  matches DataGenerators.emailRegex s ↔ address_shape s.
Proof.
  unfold DataGenerators.emailRegex, address_shape, address_part. split.
  - intros (l & ? & -> & Hl%matches_Plus_Chars_iff
            & (? & ? & -> & ->%matches_one_char_iff
               & (d & ? & -> & Hd%matches_Plus_Chars_iff
                  & (? & t & -> & ->%matches_one_char_iff
                     & Ht%matches_Plus_Chars_iff)%matches_Cat_iff
                 )%matches_Cat_iff)%matches_Cat_iff)%matches_Cat_iff.
    by exists l, d, t.
  - intros (l & d & t & -> & Hl & Hd & Ht).
    apply matches_cat; [by apply matches_Plus_Chars_iff |].
    apply (matches_cat _ _ "@"); [by apply matches_one_char_iff |].
    apply matches_cat; [by apply matches_Plus_Chars_iff |].
    apply (matches_cat _ _ "."); [by apply matches_one_char_iff |].
    by apply matches_Plus_Chars_iff.
Qed.

(** X20.  [isValidEmail] accepts exactly the values whose text is
    [local@domain.tail] with the three parts not empty and free of white
    space and of [@] (so the text has one [@], and a dot after it that is
    neither next to the [@] nor last).  Strings are taken over code
    units below 256. *)
Theorem isValidEmail_iff (email : value) :
  DataGenerators.isValidEmail email = true
  ↔ address_shape (to_string email).
Proof.
  unfold DataGenerators.isValidEmail.
  rewrite test_matches. apply emailRegex_matches.
Qed.

(** X21.  [validateEmail] never returns false: it returns [true] exactly
    for a comment that has an [email] of the shape [isValidEmail]
    accepts, and throws otherwise; a comment that is an object is
    refused by an AssertionError. *)
Theorem validateEmail_true_or_throws (comment : value) :
  (CommentsApiClient.validateEmail comment = Return (VBool true)
   ↔ ∃ email, get_prop comment "email" = Return email
              ∧ address_shape (to_string email))
  ∧ (∀ v, CommentsApiClient.validateEmail comment = Return v →
          v = VBool true)
  ∧ (∀ props, comment = VObj props →
              passes_or_fails (CommentsApiClient.validateEmail comment)).
Proof.
  unfold CommentsApiClient.validateEmail, Chai.true_, Chai.assert.
  split; [| split].
  - split.
    + destruct (get_prop comment "email") as [email | e] eqn:Hemail;
        simpl; [| discriminate].
      destruct (DataGenerators.isValidEmail email) eqn:Hvalid; simpl;
        [| discriminate].
      intros _. exists email. split; [done |].
      by apply emailRegex_matches, test_matches.
    + intros (email & -> & Hshape). simpl.
      apply emailRegex_matches, test_matches in Hshape.
      unfold DataGenerators.isValidEmail. by rewrite Hshape.
  - intros v. destruct (get_prop comment "email") as [email | e]; simpl;
      [| discriminate].
    destruct (DataGenerators.isValidEmail email); simpl; [| discriminate].
    by intros [= <-].
  - intros props ->. simpl.
    destruct (DataGenerators.isValidEmail _); simpl.
    + left. by eexists.
    + right. by eexists.
Qed.

Lemma validateEmail_true_or_throws_witness :
  CommentsApiClient.validateEmail
    (VObj {[ "email" := VStr "Eliseo@gardner.biz" ]})
  = Return (VBool true).
Proof.
  apply (proj2 (proj1 (validateEmail_true_or_throws
                         (VObj {[ "email" := VStr "Eliseo@gardner.biz" ]})))).
  exists (VStr "Eliseo@gardner.biz"). split; [reflexivity |].
  exists "Eliseo", "gardner", "biz".
  split; [reflexivity |]. by repeat split.
Defined.

(* ===================================================================== *)
(** ** The performance check of the users' page object                   *)
(* ===================================================================== *)

(** X22.  The bound handed to [getAllUsersWithPerformanceCheck] counts
    only up to 3000 ms: [validateSuccessResponse] of the page object has
    then already compared the response time with its own bound of
    3000 ms.  When the clock has moved between dispatch and answer, the
    listing is returned exactly when the timed reply passes the
    validation of the resource client and took no longer than the smaller
    of 3000 ms and the bound asked for (500 ms when none is given). *)
Theorem performance_check_bound_is_capped
    {World : Type} (Date_now : World → Z)
    (transport : HttpClient.Request → World → result value * World)
    (client : HttpClient.t) (maxResponseTime : option Z) (w w' : World)
    (props : gmap string value) (users : value) :
  transport
    (HttpClient.request_of HttpClient.GET client (VStr "/users") None None) w
    = (Return (VObj props), w') →
  Date_now w' ≠ Date_now w →
  UsersPageObject.getAllUsersWithPerformanceCheck Date_now transport client
    maxResponseTime w = (Return users, w')
  ↔ BaseApiClient.validateSuccessResponse
      (VObj (<["duration" := VNum (Date_now w' - Date_now w)]> props)) None
      = Return users
    ∧ Date_now w' - Date_now w
      ≤ Z.min 3000 (default 500 maxResponseTime).
Proof.
  intros Htransport Hclock.
  unfold UsersPageObject.getAllUsersWithPerformanceCheck.
  change (VStr UsersPageObject.endpoint) with (VStr "/users").
  rewrite get_timed, (timed_resolved _ _ _ _ _ _ _ Htransport). simpl.
  rewrite BasePageObject_validateSuccessResponse_unfold.
  set (d := Date_now w' - Date_now w).
  assert (Hd : d ≠ 0) by (subst d; lia).
  destruct (BaseApiClient.validateSuccessResponse _ None) as [body | e];
    simpl; [| split; [done | by intros [? _]]].
  change (responseValidations.validateResponseTime
            (VObj (<["duration" := VNum d]> props)) None)
    with (responseValidations.validateResponseTime
            (VObj (<["duration" := VNum d]> props)) (Some 3000)).
  unfold BasePageObject.validateResponseTime. simpl.
  rewrite !(validateResponseTime_nonzero _ d)
    by (by rewrite ?lookup_insert_eq).
  unfold Chai.assert.
  change config.performance_fast with 500.
  destruct (Z.leb_spec d 3000); simpl.
  - destruct (Z.leb_spec d (default 500 maxResponseTime)); simpl.
    + split; [intros [= ->]; split; [done | lia] | by intros [[= ->] _]].
    + split; [done | intros [_ ?]; lia].
  - split; [done | intros [_ ?]; lia].
Qed.

Lemma performance_check_bound_is_capped_witness :
  UsersPageObject.getAllUsersWithPerformanceCheck id
    (MoreSamples.replying_after 4000 (MoreSamples.users_response []))
    UsersPageObject.constructor (Some 5000) 1000
  ≠ (Return (VArr [] ∅), 5000).
Proof.
  intros Haccepted.
  apply (performance_check_bound_is_capped id
           (MoreSamples.replying_after 4000 (MoreSamples.users_response []))
           UsersPageObject.constructor (Some 5000) 1000 5000
           _ (VArr [] ∅) eq_refl) in Haccepted as [_ Hbound].
  - simpl in Hbound. lia.
  - simpl. lia.
Defined.

(* ===================================================================== *)
(** ** Listings of posts                                                 *)
(* ===================================================================== *)

Lemma validatePostSchema_passes_or_fails post :
  passes_or_fails (schemaValidations.validatePostSchema post).
Proof.
  unfold schemaValidations.validatePostSchema.
  repeat (apply bind_passes_or_fails;
          [first [apply assert_passes_or_fails
                 | apply property_of_type_passes_or_fails] | intros _ _]).
  apply property_of_type_passes_or_fails.
Qed.






(** X24.  On a reply with status 200, a JSON content type and an array
    as body, [getWithPagination(page, limit)] returns the array exactly
    when it has at most [limit] elements (10 when no limit is given) and
    each of them passes the Post schema; otherwise it throws an assertion
    failure.  A page shorter than the limit, and the empty page, are
    returned as they are. *)
Theorem getWithPagination_accepts_iff
    {World : Type} (Date_now : World → Z)
    (transport : HttpClient.Request → World → result value * World)
    (client : HttpClient.t) (page limit : option Z) (w w' : World)
    (props hprops aprops : gmap string value) (contentType : string)
    (posts : list value) :
  transport
    (HttpClient.request_of HttpClient.GET client
       (VStr ("/posts?_page=" ++ pretty (default 1 page) ++ "&_limit="
              ++ pretty (default 10 limit))) None None) w
    = (Return (VObj props), w') →
  props !! "status" = Some (VNum 200) →
  props !! "headers" = Some (VObj hprops) →
  hprops !! "content-type" = Some (VStr contentType) →
  Chai.is_substring "application/json" contentType = true →
  props !! "body" = Some (VArr posts aprops) →
  let result :=
    PostsApiClient.getWithPagination Date_now transport client page limit w in
  (result = (Return (VArr posts aprops), w')
   ↔ Z.of_nat (length posts) ≤ default 10 limit
     ∧ Forall (λ p, schemaValidations.validatePostSchema p = Return ()) posts)
  ∧ (result = (Return (VArr posts aprops), w')
     ∨ ∃ msg, result = (Throw (Chai.AssertionError msg), w')).
Proof.
  intros Htransport Hstatus Hheaders HcontentType Hjson Hbody result.
  subst result. unfold PostsApiClient.getWithPagination.
  change (VStr (PostsApiClient.endpoint ++ "?_page="
                ++ pretty (default 1 page) ++ "&_limit="
                ++ pretty (default 10 limit)))
    with (VStr ("/posts?_page=" ++ pretty (default 1 page) ++ "&_limit="
                ++ pretty (default 10 limit))).
  rewrite get_timed, (timed_resolved _ _ _ _ _ _ _ Htransport). simpl.
  rewrite (validateSuccessResponse_json_ok _ hprops contentType
             (VArr posts aprops));
    [| by rewrite lookup_insert_ne | by rewrite lookup_insert_ne | done
     | done | by rewrite lookup_insert_ne].
  simpl. unfold Chai.length_compare, Chai.property. simpl.
  unfold le_num. simpl. unfold Chai.assert.
  destruct (Z.leb_spec (Z.of_nat (length posts)) (default 10 limit)); simpl.
  - pose proof (for_each_Return_iff schemaValidations.validatePostSchema
                  posts) as Hiff.
    destruct (for_each_passes_or_fails schemaValidations.validatePostSchema
                posts validatePostSchema_passes_or_fails)
      as [[[] Hok] | [msg Hfail]].
    + rewrite Hok. simpl. split; [| by left].
      split; [intros _; split; [done | by apply Hiff] | done].
    + rewrite Hfail. simpl. split; [| right; eauto].
      split; [done |]. intros [_ Hall%Hiff]. congruence.
  - split; [| right; eauto].
    split; [done | intros [? _]; lia].
Qed.

Lemma getWithPagination_accepts_iff_witness :
  PostsApiClient.getWithPagination id
    (MoreSamples.replying
       (MoreSamples.posts_response MoreSamples.unsorted_titles))
    UsersApiClient.constructor (Some 2) (Some 2) 1000
  = (Throw (Chai.AssertionError
              "expected #{this} to have a length at most #{exp} but got #{act}"),
     1015).
Proof.
  destruct (getWithPagination_accepts_iff id
              (MoreSamples.replying
                 (MoreSamples.posts_response MoreSamples.unsorted_titles))
              UsersApiClient.constructor (Some 2) (Some 2) 1000 1015 _ _ ∅
              "application/json; charset=utf-8" MoreSamples.unsorted_titles
              eq_refl eq_refl eq_refl eq_refl eq_refl eq_refl)
    as [_ [Haccepted | [msg Hrefused]]].
  - discriminate Haccepted.
  - reflexivity.
Defined.
